(** * socialregistration.views: the redirect, callback and setup views

    A shallow embedding of [socialregistration/views.py].  Each view method
    is a computation in a state-and-exception monad over the part of the
    Django request that the views read and write: the session dictionary,
    [request.user], the user and profile tables, and the trace of observer
    calls (signals, login, saves). *)

From stdpp Require Import gmap strings list fin_maps.

(** ** Data model *)

(** A Python [dict] with string keys and values, as the views build with
    [dict(request.GET.items())] and pass as [**lookup_kwargs]. *)
Definition Dict : Type := list (string * string).

(** [django.contrib.auth.models.User]; [user_pk] is [None] until the first
    [save()]. *)
Record User : Type := mkUser {
  user_pk : option nat;
  username : string;
  is_active : bool;
  has_usable_password : bool
}.

(** The API client object kept in the session; opaque to the views. *)
Record Client : Type := mkClient {
  client_state : Dict
}.

(** A social profile: the link between one remote identity (the lookup
    keys) and one local user. *)
Record Profile : Type := mkProfile {
  profile_pk : option nat;
  profile_user : User;
  profile_identity : Dict
}.

#[global] Instance User_eq_dec : EqDecision User.
Proof. solve_decision. Defined.
#[global] Instance Client_eq_dec : EqDecision Client.
Proof. solve_decision. Defined.
#[global] Instance Profile_eq_dec : EqDecision Profile.
Proof. solve_decision. Defined.

(** [request.user]: Django's [AnonymousUser] or a logged-in [User]. *)
Inductive RequestUser : Type :=
  | AnonymousUser
  | Authenticated (u : User).

(** [user.is_authenticated()]. *)
Definition is_authenticated (ru : RequestUser) : bool :=
  match ru with
  | AnonymousUser => false
  | Authenticated _ => true
  end.

(** [a == b] on two model instances: Django compares primary keys. *)
Definition user_eq (a b : User) : bool :=
  bool_decide (user_pk a = user_pk b).

(** What the views keep in [request.session]. *)
Inductive SessionValue : Type :=
  | SStr (s : string)
  | SClient (c : Client)
  | SUser (u : User)
  | SProfile (p : Profile).

(** The form instance handed to the setup template: unbound
    ([form_data = None]) on GET, bound to [(POST, FILES)] on POST. *)
Record Form : Type := mkForm {
  form_data : option (Dict * Dict);
  form_initial : Dict
}.

(** What a view returns. *)
Inductive HttpResponse : Type :=
  | HttpResponseRedirect (url : string)
  | ErrorResponse (error : string)
  | SetupFormResponse (form : Form) (context : Dict)
  | InactiveResponse
  | HttpResponseNotAllowed.

(** Python exceptions that the views raise, catch or let through. *)
Inductive Exception : Type :=
  | KeyError
  | DoesNotExist
  | NameError (name : string)
  | ClientError (message : string)
  | SocketTimeout
  | NotImplementedError
  | AttributeError.

#[global] Instance Exception_eq_dec : EqDecision Exception.
Proof. solve_decision. Defined.

(** Calls on the collaborators that an observer of a request can see, in
    the order in which they happen.  The user handed to a signal is whatever
    the view holds at that point, which after [authenticate] may be [None]. *)
Inductive Event : Type :=
  | EvUserSave (u : User)
  | EvProfileSave (p : Profile)
  | EvAuthenticate (kwargs : Dict)
  | EvConnectSignal (u : option User) (p : Profile) (c : Client)
  | EvLogin (u : User)
  | EvLoginSignal (u : option User) (p : Profile) (c : Client)
  | EvDeleteSessionData.

Inductive HttpMethod : Type :=
  | M_GET
  | M_POST
  | M_PUT
  | M_DELETE.

(** The request as the views receive it. *)
Record Request : Type := mkRequest {
  method : HttpMethod;
  GET : Dict;
  POST : Dict;
  FILES : Dict
}.

(** The mutable state a view runs in. *)
Record World : Type := mkWorld {
  session : gmap string SessionValue;
  request_user : RequestUser;
  db_users : list User;
  db_profiles : list Profile;
  events : list Event
}.

Definition set_session (f : gmap string SessionValue → gmap string SessionValue)
    (w : World) : World :=
  mkWorld (f (session w)) (request_user w) (db_users w) (db_profiles w) (events w).

Definition set_request_user (ru : RequestUser) (w : World) : World :=
  mkWorld (session w) ru (db_users w) (db_profiles w) (events w).

Definition set_db_users (l : list User) (w : World) : World :=
  mkWorld (session w) (request_user w) l (db_profiles w) (events w).

Definition set_db_profiles (l : list Profile) (w : World) : World :=
  mkWorld (session w) (request_user w) (db_users w) l (events w).

Definition emit (e : Event) (w : World) : World :=
  mkWorld (session w) (request_user w) (db_users w) (db_profiles w) (events w ++ [e]).

(** ** The monad of view code: state plus Python exceptions *)

Inductive Result (A : Type) : Type :=
  | Ok (a : A)
  | Raise (e : Exception).
Arguments Ok {A} a.
Arguments Raise {A} e.

Definition M (A : Type) : Type := World → Result A * World.

#[global] Instance M_ret : MRet M := λ A a w, (Ok a, w).

#[global] Instance M_bind : MBind M := λ A B f m w,
  match m w with
  | (Ok a, w') => f a w'
  | (Raise e, w') => (Raise e, w')
  end.

Definition raise {A} (e : Exception) : M A := λ w, (Raise e, w).

Definition get_world : M World := λ w, (Ok w, w).

Definition modify (f : World → World) : M unit := λ w, (Ok tt, f w).

(** The class expression of an [except] clause.  It is evaluated only when
    an exception reaches the clause; a name that is bound nowhere in the
    module raises [NameError] at that moment. *)
Inductive ExceptClass : Type :=
  | ExcKeyError
  | ExcDoesNotExist
  | ExcSocketTimeout
  | ExcUnbound (name : string).

Definition isinstance (e : Exception) (c : ExceptClass) : bool :=
  match c, e with
  | ExcKeyError, KeyError => true
  | ExcDoesNotExist, DoesNotExist => true
  | ExcSocketTimeout, SocketTimeout => true
  | _, _ => false
  end.

(** The [except] clauses of a [try] statement, tried from top to bottom. *)
Fixpoint handle {A} (e : Exception) (clauses : list (ExceptClass * M A)) : M A :=
  match clauses with
  | [] => raise e
  | (ExcUnbound name, _) :: _ => raise (NameError name)
  | (c, handler) :: rest => if isinstance e c then handler else handle e rest
  end.

(** [try: body except c1: h1 except c2: h2 ...]; the state reached when the
    exception was raised is the state the handler starts from. *)
Definition try_except {A} (body : M A) (clauses : list (ExceptClass * M A)) : M A :=
  λ w, match body w with
       | (Ok a, w') => (Ok a, w')
       | (Raise e, w') => handle e clauses w'
       end.

(** A block that either leaves the view with [return response] or falls
    through with a value. *)
Inductive Flow (A : Type) : Type :=
  | Return (response : HttpResponse)
  | Continue (a : A).
Arguments Return {A} response.
Arguments Continue {A} a.

(** ** Session dictionary *)

(** [request.session[key]]. *)
Definition session_getitem (key : string) : M SessionValue := λ w,
  match session w !! key with
  | Some v => (Ok v, w)
  | None => (Raise KeyError, w)
  end.

(** [request.session[key] = value]. *)
Definition session_setitem (key : string) (v : SessionValue) : M unit :=
  modify (set_session (insert key v)).

(** The object read from the session used as a client, user or profile;
    anything else has none of the attributes the views go on to use. *)
Definition as_client (v : SessionValue) : M Client :=
  match v with SClient c => mret c | _ => raise AttributeError end.

Definition as_user (v : SessionValue) : M User :=
  match v with SUser u => mret u | _ => raise AttributeError end.

Definition as_profile (v : SessionValue) : M Profile :=
  match v with SProfile p => mret p | _ => raise AttributeError end.


(** ** Configuration *)

(** The form class named by [SOCIALREGISTRATION_SETUP_FORM]: its validation,
    and the fields its [save] copies from the cleaned data onto the user. *)
Record FormClass : Type := mkFormClass {
  is_valid : Form → bool;
  cleaned_user : Form → User → User
}.

(** The module-level settings read at the top of [views.py], together with
    the settings of the mixin the views inherit from: the names of the three
    pending-signup session keys, the default "next" URL and the URL that
    [reverse('socialregistration:setup')] yields. *)
Record Settings : Type := mkSettings {
  GENERATE_USERNAME : bool;
  USERNAME_FUNCTION : User → Profile → Client → string;
  FORM_CLASS : FormClass;
  INITAL_DATA_FUNCTION : option (Request → User → Profile → Client → Dict);
  CONTEXT_FUNCTION : option (Request → User → Profile → Client → Dict);
  ALLOW_OPENID_SIGNUPS : bool;
  LOGIN_REDIRECT_URL : string;
  SESSION_USER_KEY : string;
  SESSION_PROFILE_KEY : string;
  SESSION_CLIENT_KEY : string;
  SETUP_URL : string
}.

(** The API client class a view is configured with ([self.client]). *)
Record ClientClass : Type := mkClientClass {
  get_session_key : string;
  is_OpenIDClient : bool;
  new_client : Client;
  get_redirect_url : Client → Request → Result string;
  complete : Client → Dict → Result Client
}.

(** The attributes and hooks a concrete view class supplies. *)
Record ViewClass : Type := mkViewClass {
  client : ClientClass;
  get_lookup_kwargs : Request → Client → Dict;
  get_redirect : option string
}.

(** Lifting the outcome of a client call into the monad. *)
Definition call {A} (r : Result A) : M A := λ w, (r, w).

(** ** The persistence layer *)

(** The next free primary key of a table. *)
Definition next_pk {A} (pk : A → option nat) (table : list A) : nat :=
  S (foldr Nat.max 0 (omap pk table)).

(** Write a row: replace the row with the same key, or append. *)
Definition upsert {A} (same : A → A → bool) (x : A) (table : list A) : list A :=
  if existsb (same x) table
  then map (λ row, if same x row then x else row) table
  else table ++ [x].

Definition set_username (name : string) (u : User) : User :=
  mkUser (user_pk u) name (is_active u) (has_usable_password u).

(** [user.set_unusable_password()]. *)
Definition set_unusable_password (u : User) : User :=
  mkUser (user_pk u) (username u) (is_active u) false.

Definition set_profile_user (u : User) (p : Profile) : Profile :=
  mkProfile (profile_pk p) u (profile_identity p).

Definition with_user_pk (u : User) (table : list User) : User :=
  match user_pk u with
  | Some _ => u
  | None => mkUser (Some (next_pk user_pk table)) (username u) (is_active u)
              (has_usable_password u)
  end.

Definition with_profile_pk (p : Profile) (table : list Profile) : Profile :=
  match profile_pk p with
  | Some _ => p
  | None => mkProfile (Some (next_pk profile_pk table)) (profile_user p)
              (profile_identity p)
  end.

Definition profile_eq (a b : Profile) : bool :=
  bool_decide (profile_pk a = profile_pk b).

(** [user.save()]: the object receives its primary key on the first save. *)
Definition user_save (u : User) : M User := λ w,
  let u' := with_user_pk u (db_users w) in
  (Ok u', emit (EvUserSave u') (set_db_users (upsert user_eq u' (db_users w)) w)).

(** [profile.save()]. *)
Definition profile_save (p : Profile) : M Profile := λ w,
  let p' := with_profile_pk p (db_profiles w) in
  (Ok p', emit (EvProfileSave p') (set_db_profiles (upsert profile_eq p' (db_profiles w)) w)).

(** The filter of a profile query: the lookup keys, and the owner when
    [user=...] is among the keyword arguments. *)
Definition profile_matches (owner : option User) (kwargs : Dict) (p : Profile) : bool :=
  bool_decide (profile_identity p = kwargs)
  && match owner with
     | Some u => user_eq (profile_user p) u
     | None => true
     end.

Definition find_profile (owner : option User) (kwargs : Dict)
    (table : list Profile) : option Profile :=
  find (profile_matches owner kwargs) table.

(** ** The [SocialRegistration] mixin

    The views inherit these helpers from [socialregistration.mixins], whose
    source is not part of the files under study. *)

Section Views.

Variable settings : Settings.
Variable view : ViewClass.

(** Modelled from the spec: [get_next] of the missing mixin, the stored
    "next" URL, which "defaults to a site home if absent". *)
Definition get_next : M string := λ w,
  match session w !! "next" with
  | Some (SStr url) => (Ok url, w)
  | _ => (Ok (LOGIN_REDIRECT_URL settings), w)
  end.

(** Modelled from the spec: [redirect] of the missing mixin, "redirect to
    the stored next URL". *)
Definition redirect : M HttpResponse :=
  url ← get_next; mret (HttpResponseRedirect url).

(** Modelled from the spec: [error_to_response] of the missing mixin, "a
    rendered error response carrying a human-readable message". *)
Definition error_to_response (error : string) : M HttpResponse :=
  mret (ErrorResponse error).

(** Modelled from the spec: [inactive_response] of the missing mixin,
    "render an inactive account response". *)
Definition inactive_response : M HttpResponse :=
  mret InactiveResponse.

(** [render_to_response(dict({'form': form}, **additional_context))]. *)
Definition render_to_response (form : Form) (context : Dict) : M HttpResponse :=
  mret (SetupFormResponse form context).

(** Modelled from the spec: [get_session_data] of the missing mixin, the
    pending (user, profile, client) triple; a missing key is a [KeyError]. *)
Definition get_session_data : M (User * Profile * Client) :=
  user ← session_getitem (SESSION_USER_KEY settings) ≫= as_user;
  profile ← session_getitem (SESSION_PROFILE_KEY settings) ≫= as_profile;
  client ← session_getitem (SESSION_CLIENT_KEY settings) ≫= as_client;
  mret (user, profile, client).

(** Modelled from the spec: [delete_session_data] of the missing mixin,
    "clear pending session state". *)
Definition delete_session_data : M unit :=
  modify (λ w, emit EvDeleteSessionData
    (set_session (λ s, delete (SESSION_CLIENT_KEY settings)
                         (delete (SESSION_PROFILE_KEY settings)
                            (delete (SESSION_USER_KEY settings) s))) w)).

(** Modelled from the spec: [store_user], [store_profile] and [store_client]
    of the missing mixin, "store them plus the client in the session". *)
Definition store_user (user : User) : M unit :=
  session_setitem (SESSION_USER_KEY settings) (SUser user).

Definition store_profile (profile : Profile) : M unit :=
  session_setitem (SESSION_PROFILE_KEY settings) (SProfile profile).

Definition store_client (c : Client) : M unit :=
  session_setitem (SESSION_CLIENT_KEY settings) (SClient c).

(** Modelled from the spec: [get_profile] of the missing mixin,
    "find(lookup_keys) -> Profile | NotFound". *)
Definition get_profile (owner : option User) (kwargs : Dict) : M Profile := λ w,
  match find_profile owner kwargs (db_profiles w) with
  | Some p => (Ok p, w)
  | None => (Raise DoesNotExist, w)
  end.

(** Modelled from the spec: [create_user] of the missing mixin, a fresh
    unsaved user. *)
Definition create_user : M User :=
  mret (mkUser None "" true true).

(** Modelled from the spec: [create_profile] of the missing mixin, an
    unsaved profile linking the user to the lookup keys. *)
Definition create_profile (user : User) (kwargs : Dict) : M Profile :=
  mret (mkProfile None user kwargs).

(** Modelled from the spec: [get_or_create_profile] of the missing mixin,
    "if not found, create and persist a new profile owned by the current
    user". *)
Definition get_or_create_profile (user : User) (save : bool) (kwargs : Dict)
    : M (Profile * bool) :=
  try_except
    (profile ← get_profile (Some user) kwargs; mret (profile, false))
    [(ExcDoesNotExist,
      profile ← create_profile user kwargs;
      profile ← (if save then profile_save profile else mret profile);
      mret (profile, true))].

(** Modelled from the spec: [authenticate] of the missing mixin,
    "authenticate(lookup_keys) -> User | None": the local user that the
    profile stored for these lookup keys belongs to. *)
Definition authenticate (kwargs : Dict) : M (option User) := λ w,
  (Ok (profile_user <$> find_profile None kwargs (db_profiles w)),
   emit (EvAuthenticate kwargs) w).

(** Modelled from the spec: [profile.authenticate()] of the missing profile
    model, the same resolution from the profile's own lookup keys. *)
Definition profile_authenticate (profile : Profile) : M (option User) :=
  authenticate (profile_identity profile).

(** Modelled from the spec: [login] of the missing mixin, "bind the session
    to this user"; [None] has no attributes to bind. *)
Definition login (user : option User) : M unit :=
  match user with
  | Some u => modify (λ w, emit (EvLogin u) (set_request_user (Authenticated u) w))
  | None => raise AttributeError
  end.

(** Modelled from the spec: [send_connect_signal] of the missing mixin,
    "on_connect(user, profile, client)", a fire-and-forget observer call. *)
Definition send_connect_signal (user : option User) (profile : Profile)
    (c : Client) : M unit :=
  modify (emit (EvConnectSignal user profile c)).

(** Modelled from the spec: [send_login_signal] of the missing mixin,
    "on_login(user, profile, client)". *)
Definition send_login_signal (user : option User) (profile : Profile)
    (c : Client) : M unit :=
  modify (emit (EvLoginSignal user profile c)).

(** [self.get_client()]: the configured client class. *)
Definition get_client : ClientClass := client view.

(** [request.user]. *)
Definition get_request_user : M RequestUser := λ w, (Ok (request_user w), w).

(** Django's [View.dispatch] for a method the view class does not define. *)
Definition http_method_not_allowed : M HttpResponse :=
  mret HttpResponseNotAllowed.

(** ** [class Setup] *)

Definition get_form : FormClass := FORM_CLASS settings.

Definition get_username_function : User → Profile → Client → string :=
  USERNAME_FUNCTION settings.

Definition get_initial_data (request : Request) (user : User) (profile : Profile)
    (c : Client) : Dict :=
  match INITAL_DATA_FUNCTION settings with
  | Some func => func request user profile c
  | None => []
  end.

Definition get_context (request : Request) (user : User) (profile : Profile)
    (c : Client) : Dict :=
  match CONTEXT_FUNCTION settings with
  | Some func => func request user profile c
  | None => []
  end.

(** Modelled from the spec: [form.save] of the missing form class, "the form
    itself performs user/profile persistence". *)
Definition form_save (form : Form) (user : User) (profile : Profile)
    : M (User * Profile) :=
  user ← user_save (cleaned_user get_form form user);
  profile ← profile_save (set_profile_user user profile);
  mret (user, profile).

Definition generate_username_and_redirect (request : Request) (user : User)
    (profile : Profile) (c : Client) : M HttpResponse :=
  let func := get_username_function in
  let user := set_username (func user profile c) user in
  let user := set_unusable_password user in
  user ← user_save user;
  let profile := set_profile_user user profile in
  profile ← profile_save profile;
  user ← profile_authenticate profile;
  send_connect_signal user profile c;;
  login user;;
  send_login_signal user profile c;;
  delete_session_data;;
  url ← get_next;
  mret (HttpResponseRedirect url).

Definition Setup_get (request : Request) : M HttpResponse :=
  ru ← get_request_user;
  if is_authenticated ru then
    url ← get_next; mret (HttpResponseRedirect url)
  else
    data ← try_except
      (d ← get_session_data; mret (Continue d))
      [(ExcKeyError,
        r ← error_to_response "Social profile is missing from your session.";
        mret (Return r))];
    match data with
    | Return r => mret r
    | Continue (user, profile, c) =>
        if GENERATE_USERNAME settings then
          generate_username_and_redirect request user profile c
        else
          let form := mkForm None (get_initial_data request user profile c) in
          let additional_context := get_context request user profile c in
          render_to_response form additional_context
    end.

Definition Setup_post (request : Request) : M HttpResponse :=
  ru ← get_request_user;
  if is_authenticated ru then
    error_to_response "You are already logged in."
  else
    data ← try_except
      (d ← get_session_data; mret (Continue d))
      [(ExcKeyError,
        r ← error_to_response "A social profile is missing from your session.";
        mret (Return r))];
    match data with
    | Return r => mret r
    | Continue (user, profile, c) =>
        let form := mkForm (Some (POST request, FILES request))
                      (get_initial_data request user profile c) in
        if negb (is_valid get_form form) then
          let additional_context := get_context request user profile c in
          render_to_response form additional_context
        else
          '(user, profile) ← form_save form user profile;
          user ← profile_authenticate profile;
          send_connect_signal user profile c;;
          login user;;
          send_login_signal user profile c;;
          delete_session_data;;
          url ← get_next;
          mret (HttpResponseRedirect url)
    end.

Definition Setup_dispatch (request : Request) : M HttpResponse :=
  match method request with
  | M_GET => Setup_get request
  | M_POST => Setup_post request
  | _ => http_method_not_allowed
  end.

(** ** [class OAuthRedirect] *)

(** [logger.debug] leaves no trace in the state and is not modelled.  The
    name [error] in the second [except] clause is bound nowhere in the
    module. *)
Definition OAuthRedirect_post (request : Request) : M HttpResponse :=
  next ← get_next;
  session_setitem "next" (SStr next);;
  let c := new_client get_client in
  session_setitem (get_session_key get_client) (SClient c);;
  url ← call (get_redirect_url get_client c request);
  try_except
    (mret (HttpResponseRedirect url))
    [(ExcUnbound "error", raise (NameError "error"));
     (ExcSocketTimeout,
      error_to_response "Could not connect to service (timed out)")].

Definition OAuthRedirect_dispatch (request : Request) : M HttpResponse :=
  match method request with
  | M_POST => OAuthRedirect_post request
  | _ => http_method_not_allowed
  end.

(** ** [class OAuthCallback] *)

(** [self.get_redirect()]: the base class raises; a subclass returns a URL. *)
Definition OAuthCallback_get_redirect : M string :=
  match get_redirect view with
  | Some url => mret url
  | None => raise NotImplementedError
  end.

Definition OAuthCallback_get (request : Request) : M HttpResponse :=
  try_except
    (c ← session_getitem (get_session_key get_client) ≫= as_client;
     c ← call (complete get_client c (GET request));
     session_setitem (get_session_key get_client) (SClient c);;
     url ← OAuthCallback_get_redirect;
     mret (HttpResponseRedirect url))
    [(ExcKeyError, error_to_response "Session expired.");
     (ExcUnbound "error", raise (NameError "error"));
     (ExcSocketTimeout,
      error_to_response "Could not connect to service (timed out)")].

Definition OAuthCallback_dispatch (request : Request) : M HttpResponse :=
  match method request with
  | M_GET => OAuthCallback_get request
  | _ => http_method_not_allowed
  end.

(** ** [class SetupCallback] *)

Definition SetupCallback_get (request : Request) : M HttpResponse :=
  found ← try_except
    (v ← session_getitem (get_session_key get_client); mret (Continue v))
    [(ExcKeyError, r ← error_to_response "Session expired."; mret (Return r))];
  match found with
  | Return r => mret r
  | Continue v =>
      c ← as_client v;
      let lookup_kwargs := get_lookup_kwargs view request c in
      ru ← get_request_user;
      match ru with
      | Authenticated current =>
          flow ← try_except
            (profile ← get_profile None lookup_kwargs;
             if negb (user_eq (profile_user profile) current) then
               delete_session_data;;
               r ← error_to_response
                     "This profile is already connected to another user account.";
               mret (Return r)
             else mret (Continue profile))
            [(ExcDoesNotExist,
              '(profile, created) ← get_or_create_profile current true lookup_kwargs;
              mret (Continue profile))];
          match flow with
          | Return r => mret r
          | Continue profile =>
              send_connect_signal (Some current) profile c;;
              redirect
          end
      | AnonymousUser =>
          user ← authenticate lookup_kwargs;
          match user with
          | None =>
              if negb (ALLOW_OPENID_SIGNUPS settings) && is_OpenIDClient get_client then
                error_to_response "We are not currently accepting new OpenID signups."
              else
                user ← create_user;
                profile ← create_profile user lookup_kwargs;
                store_user user;;
                store_profile profile;;
                store_client c;;
                mret (HttpResponseRedirect (SETUP_URL settings))
          | Some user =>
              if negb (is_active user) then inactive_response
              else
                login (Some user);;
                profile ← get_profile (Some user) lookup_kwargs;
                send_login_signal (Some user) profile c;;
                redirect
          end
      end
  end.

Definition SetupCallback_dispatch (request : Request) : M HttpResponse :=
  match method request with
  | M_GET => SetupCallback_get request
  | _ => http_method_not_allowed
  end.

End Views.

(** ** Running a view *)

(** The response (or the exception that escapes) and the state left behind. *)
Definition outcome {A} (m : M A) (w : World) : Result A := fst (m w).
Definition final {A} (m : M A) (w : World) : World := snd (m w).

(** The three pending-signup keys removed from a session. *)
Definition without_pending (settings : Settings)
    (s : gmap string SessionValue) : gmap string SessionValue :=
  delete (SESSION_CLIENT_KEY settings)
    (delete (SESSION_PROFILE_KEY settings)
       (delete (SESSION_USER_KEY settings) s)).

(** What it is for a request to the redirect start to begin the handshake:
    the URL that [get_next] gave is written under "next" and then the fresh
    client under the client's session key, nothing else of the session
    changes, and the response redirects to the authorization URL the client
    gave.  The session then holds the fresh client, and it holds the "next"
    URL unless the client's session key is itself "next". *)
Definition starts_handshake (settings : Settings) (view : ViewClass)
    (request : Request) (w : World) : Prop :=
  let cls := client view in
  let result := OAuthRedirect_dispatch settings view request w in
  ∃ url next,
    get_redirect_url cls (new_client cls) request = Ok url
    ∧ outcome (get_next settings) w = Ok next
    ∧ result.1 = Ok (HttpResponseRedirect url)
    ∧ session result.2
      = <[get_session_key cls := SClient (new_client cls)]>
          (<["next" := SStr next]> (session w))
    ∧ session result.2 !! get_session_key cls = Some (SClient (new_client cls))
    ∧ (get_session_key cls ≠ "next" →
       session result.2 !! "next" = Some (SStr next)).

(** The URL [get_next] answers for a session. *)
Definition next_url (settings : Settings) (s : gmap string SessionValue) : string :=
  match s !! "next" with
  | Some (SStr url) => url
  | _ => LOGIN_REDIRECT_URL settings
  end.

(** The session after [store_user], [store_profile] and [store_client]. *)
Definition with_pending (settings : Settings) (user : User) (profile : Profile)
    (c : Client) (s : gmap string SessionValue) : gmap string SessionValue :=
  <[SESSION_CLIENT_KEY settings := SClient c]>
    (<[SESSION_PROFILE_KEY settings := SProfile profile]>
       (<[SESSION_USER_KEY settings := SUser user]> s)).

(** The state a completed signup leaves: [named] is the pending user with
    the fields of the new account filled in, [logged_in] the user that the
    second authentication resolved. *)
Definition completed_signup (settings : Settings) (named : User)
    (profile : Profile) (c : Client) (logged_in : User) (w : World) : World :=
  let saved_user := with_user_pk named (db_users w) in
  let saved_profile := with_profile_pk (set_profile_user saved_user profile)
                         (db_profiles w) in
  mkWorld (without_pending settings (session w))
    (Authenticated logged_in)
    (upsert user_eq saved_user (db_users w))
    (upsert profile_eq saved_profile (db_profiles w))
    (events w ++
       [EvUserSave saved_user; EvProfileSave saved_profile;
        EvAuthenticate (profile_identity profile);
        EvConnectSignal (Some logged_in) saved_profile c;
        EvLogin logged_in;
        EvLoginSignal (Some logged_in) saved_profile c;
        EvDeleteSessionData]).

(** The profile [get_or_create_profile] creates and saves for a user. *)
Definition connected_profile (user : User) (kwargs : Dict)
    (table : list Profile) : Profile :=
  mkProfile (Some (next_pk profile_pk table)) user kwargs.

(** ** Fixtures: one provider, three local users *)

Definition alice : User := mkUser (Some 1) "alice" true true.
Definition bob : User := mkUser (Some 2) "bob" true true.
Definition carol : User := mkUser (Some 3) "carol" false true.

Definition remote_alice : Dict := [("uid", "1001")].
Definition remote_carol : Dict := [("uid", "1003")].
Definition remote_new : Dict := [("uid", "1999")].

Definition alice_profile : Profile := mkProfile (Some 1) alice remote_alice.
Definition carol_profile : Profile := mkProfile (Some 2) carol remote_carol.

(** A provider client whose state is the identity the provider returned. *)
Definition provider_url : string := "https://provider.example/authorize".

Definition facebook : ClientClass :=
  mkClientClass "facebook" false (mkClient [])
    (λ _ _, Ok provider_url)
    (λ _ params, Ok (mkClient params)).

(** The same provider when it rejects the callback, and when the network
    call times out. *)
Definition facebook_denied : ClientClass :=
  mkClientClass "facebook" false (mkClient [])
    (λ _ _, Raise (ClientError "access_denied"))
    (λ _ _, Raise (ClientError "access_denied")).

Definition facebook_timeout : ClientClass :=
  mkClientClass "facebook" false (mkClient [])
    (λ _ _, Raise SocketTimeout)
    (λ _ _, Raise SocketTimeout).

Definition openid : ClientClass :=
  mkClientClass "openid" true (mkClient [])
    (λ _ _, Ok provider_url)
    (λ _ params, Ok (mkClient params)).

Definition view_of (cls : ClientClass) : ViewClass :=
  mkViewClass cls (λ _ c, client_state c) (Some "/social/setup/callback/").

Definition user_form : FormClass :=
  mkFormClass
    (λ form, match form_data form with
             | Some (post, _) => bool_decide (is_Some (list_to_map (M := gmap string string) post !! "username"))
             | None => false
             end)
    (λ form user, match form_data form with
                  | Some (post, _) =>
                      set_username (default "" (list_to_map (M := gmap string string) post !! "username")) user
                  | None => user
                  end).

Definition site_settings (generate allow_openid : bool) : Settings :=
  mkSettings generate (λ _ profile _, "user" +:+ default "" (snd <$> head (profile_identity profile)))
    user_form None None allow_openid "/"
    "socialreg:user" "socialreg:profile" "socialreg:client" "/social/setup/".

Definition a_get : Request := mkRequest M_GET [] [] [].
Definition a_post (data : Dict) : Request := mkRequest M_POST [] data [].

Definition database : list Profile := [alice_profile; carol_profile].

(** A browser that has just completed the handshake for [identity]. *)
Definition after_handshake (cls : ClientClass) (identity : Dict)
    (ru : RequestUser) : World :=
  mkWorld (<[get_session_key cls := SClient (mkClient identity)]>
             (<["next" := SStr "/account/"]> ∅))
    ru [alice; bob; carol] database [].

(** A browser that the decision flow has sent on to the setup step. *)
Definition pending_signup : World :=
  let user := mkUser None "" true true in
  mkWorld (<["socialreg:client" := SClient (mkClient remote_new)]>
             (<["socialreg:profile" := SProfile (mkProfile None user remote_new)]>
                (<["socialreg:user" := SUser user]>
                   (<["next" := SStr "/account/"]> ∅))))
    AnonymousUser [alice; bob; carol] database [].

(** The newcomer's account as auto-generate mode saves it. *)
Definition newcomer : User := mkUser (Some 4) "user1999" true false.
Definition newcomer_profile : Profile := mkProfile (Some 3) newcomer remote_new.

(** The same provider when [complete] trips over a missing parameter. *)
Definition facebook_keyerror : ClientClass :=
  mkClientClass "facebook" false (mkClient [])
    (λ _ _, Ok provider_url)
    (λ _ _, Raise KeyError).

(** A callback view that does not override [get_redirect]. *)
Definition base_view_of (cls : ClientClass) : ViewClass :=
  mkViewClass cls (λ _ c, client_state c) None.

(** Bob's profile for the new identity, once he has connected it. *)
Definition bob_profile : Profile := mkProfile (Some 3) bob remote_new.

(** ** Tactics for running a view *)

(** One step of a view: unfold the monad and the helpers, then project the
    fields of the states that have become explicit. *)
Ltac run_view :=
  repeat (progress (
    cbv beta iota zeta delta
        [outcome final try_except handle isinstance mbind M_bind mret M_ret raise
         session_getitem get_request_user get_client get_profile
         get_session_data as_client as_user as_profile
         authenticate profile_authenticate login redirect get_next
         error_to_response inactive_response render_to_response
         delete_session_data send_connect_signal send_login_signal
         store_user store_profile store_client create_user create_profile
         user_save profile_save
         session_setitem modify call emit set_session set_request_user
         set_db_users set_db_profiles];
    cbn [session request_user db_users db_profiles events fst snd negb andb
         is_authenticated
         fmap option_fmap option_map])).

(** Decide a branch of the view with a fact about the state, and go on. *)
Tactic Notation "using" constr(H) := rewrite ?H; run_view.

(** ** Properties of the persistence layer *)

Lemma user_eq_refl (u : User) : user_eq u u = true.
Proof. unfold user_eq. by apply bool_decide_eq_true. Qed.

Lemma profile_eq_refl (p : Profile) : profile_eq p p = true.
Proof. unfold profile_eq. by apply bool_decide_eq_true. Qed.

(** A profile found by its lookup keys is also the one found when its own
    owner is added to the query. *)
Lemma find_profile_owner (kwargs : Dict) (table : list Profile) (p : Profile) :
  find_profile None kwargs table = Some p →
  find_profile (Some (profile_user p)) kwargs table = Some p.
Proof.
  unfold find_profile.
  induction table as [|row table IH]; simpl; [done|].
  unfold profile_matches at 1 3.
  destruct (bool_decide (profile_identity row = kwargs)); simpl.
  - intros [= ->]. by rewrite user_eq_refl.
  - exact IH.
Qed.

(** What [authenticate] answers is the owner of the profile stored for the
    lookup keys. *)
Lemma authenticate_resolves (kwargs : Dict) (w : World) (u : User) :
  outcome (authenticate kwargs) w = Ok (Some u) →
  ∃ p, find_profile None kwargs (db_profiles w) = Some p ∧ profile_user p = u.
Proof.
  unfold outcome, authenticate; simpl.
  destruct (find_profile None kwargs (db_profiles w)) as [p|]; simpl; [|done].
  intros [= <-]. by exists p.
Qed.

Lemma authenticate_unknown (kwargs : Dict) (w : World) :
  outcome (authenticate kwargs) w = Ok None →
  find_profile None kwargs (db_profiles w) = None.
Proof.
  unfold outcome, authenticate; simpl.
  by destruct (find_profile None kwargs (db_profiles w)).
Qed.

(** ** The decision flow: [SetupCallback.get] *)

Section DecisionFlow.

Variable settings : Settings.
Variable view : ViewClass.
Variable request : Request.
Variable w : World.
Variable c : Client.

Hypothesis client_in_session :
  session w !! get_session_key (client view) = Some (SClient c).

Local Abbreviation lookup_kwargs := (get_lookup_kwargs view request c).
Local Abbreviation run := (SetupCallback_get settings view request w).

(** C1: a logged-in user U completes a handshake whose lookup keys resolve
    to a profile that belongs to another user.  The view clears the pending
    session data and answers with the rendered error "This profile is
    already connected to another user account."; the profile and user
    tables are untouched, no signal is sent and nobody is logged in or
    redirected. *)
Theorem SetupCallback_get_profile_of_another_user (U : User) (profile : Profile) :
  request_user w = Authenticated U →
  find_profile None lookup_kwargs (db_profiles w) = Some profile →
  user_eq (profile_user profile) U = false →
  run.1 = Ok (ErrorResponse
                "This profile is already connected to another user account.")
  ∧ session run.2 = without_pending settings (session w)
  ∧ db_profiles run.2 = db_profiles w
  ∧ db_users run.2 = db_users w
  ∧ events run.2 = events w ++ [EvDeleteSessionData]
  ∧ request_user run.2 = Authenticated U.
Proof.
  intros HU Hfind Hother.
  unfold SetupCallback_get. run_view.
  using client_in_session. using HU. using Hfind. using Hother.
  done.
Qed.

(** C2: a logged-in user U completes a handshake whose lookup keys resolve
    to a profile U already owns.  The view goes on with that profile: the
    profile table is unchanged, exactly one connect signal is sent, with
    (U, profile, client), and the response redirects to the stored "next"
    URL. *)
Theorem SetupCallback_get_reconnect (U : User) (profile : Profile) (next : string) :
  request_user w = Authenticated U →
  find_profile None lookup_kwargs (db_profiles w) = Some profile →
  user_eq (profile_user profile) U = true →
  session w !! "next" = Some (SStr next) →
  run.1 = Ok (HttpResponseRedirect next)
  ∧ db_profiles run.2 = db_profiles w
  ∧ events run.2 = events w ++ [EvConnectSignal (Some U) profile c]
  ∧ session run.2 = session w.
Proof.
  intros HU Hfind Hown Hnext.
  unfold SetupCallback_get. run_view.
  using client_in_session. using HU. using Hfind. using Hown.
  using Hnext. done.
Qed.

(** C3: an anonymous browser completes a handshake for which
    [authenticate] on the lookup keys resolves to an active user.  The user is
    logged in, exactly one login signal is sent, with (user, profile,
    client) for the profile of that user and those lookup keys, and the
    response redirects to the stored "next" URL. *)
Theorem SetupCallback_get_known_identity (user : User) (next : string) :
  request_user w = AnonymousUser →
  outcome (authenticate lookup_kwargs) w = Ok (Some user) →
  is_active user = true →
  session w !! "next" = Some (SStr next) →
  ∃ profile,
    find_profile (Some user) lookup_kwargs (db_profiles w) = Some profile
    ∧ run.1 = Ok (HttpResponseRedirect next)
    ∧ request_user run.2 = Authenticated user
    ∧ events run.2 = events w ++ [EvAuthenticate lookup_kwargs; EvLogin user;
                                   EvLoginSignal (Some user) profile c].
Proof.
  intros Hanon Hauth Hactive Hnext.
  destruct (authenticate_resolves _ _ _ Hauth) as (profile & Hfind & <-).
  exists profile. split; [by apply find_profile_owner|].
  apply find_profile_owner in Hfind as Hfind'.
  unfold SetupCallback_get. run_view.
  using client_in_session. using Hanon. using Hfind. using Hactive.
  using Hfind'. using Hnext.
  by rewrite <- ?app_assoc.
Qed.

(** C5: an anonymous browser completes an OpenID handshake for an unknown
    identity while OpenID signups are switched off.  The view answers with
    the rendered error "We are not currently accepting new OpenID signups.";
    no user and no profile is created or stored, in the tables or in the
    session. *)
Theorem SetupCallback_get_openid_signups_disabled :
  request_user w = AnonymousUser →
  outcome (authenticate lookup_kwargs) w = Ok None →
  is_OpenIDClient (client view) = true →
  ALLOW_OPENID_SIGNUPS settings = false →
  run.1 = Ok (ErrorResponse "We are not currently accepting new OpenID signups.")
  ∧ db_users run.2 = db_users w
  ∧ db_profiles run.2 = db_profiles w
  ∧ session run.2 = session w
  ∧ events run.2 = events w ++ [EvAuthenticate lookup_kwargs].
Proof.
  intros Hanon Hauth Hopenid Hoff.
  apply authenticate_unknown in Hauth.
  unfold SetupCallback_get. run_view.
  using client_in_session. using Hanon. using Hauth.
  rewrite Hoff, Hopenid. by run_view.
Qed.

(** C6: an anonymous browser completes a handshake for which
    [authenticate] on the lookup keys resolves to an inactive user.  Nobody is
    logged in, no login signal is sent, and the inactive-account response is
    rendered. *)
Theorem SetupCallback_get_inactive_user (user : User) :
  request_user w = AnonymousUser →
  outcome (authenticate lookup_kwargs) w = Ok (Some user) →
  is_active user = false →
  run.1 = Ok InactiveResponse
  ∧ request_user run.2 = AnonymousUser
  ∧ events run.2 = events w ++ [EvAuthenticate lookup_kwargs]
  ∧ session run.2 = session w.
Proof.
  intros Hanon Hauth Hinactive.
  destruct (authenticate_resolves _ _ _ Hauth) as (profile & Hfind & <-).
  unfold SetupCallback_get. run_view.
  using client_in_session. using Hanon. using Hfind. using Hinactive.
  done.
Qed.

End DecisionFlow.

(** ** Saving and resolving a profile *)

Lemma upsert_In {A} (same : A → A → bool) (x : A) (table : list A) :
  same x x = true → In x (upsert same x table).
Proof.
  intros Hrefl. unfold upsert.
  destruct (existsb (same x) table) eqn:Hex.
  - apply existsb_exists in Hex as (row & Hin & Hsame).
    apply in_map_iff. exists row. by rewrite Hsame.
  - apply in_app_iff. right. by left.
Qed.

Lemma with_profile_pk_identity (p : Profile) (table : list Profile) :
  profile_identity (with_profile_pk p table) = profile_identity p.
Proof. unfold with_profile_pk. by destruct (profile_pk p). Qed.

Lemma with_profile_pk_user (p : Profile) (table : list Profile) :
  profile_user (with_profile_pk p table) = profile_user p.
Proof. unfold with_profile_pk. by destruct (profile_pk p). Qed.

Lemma with_user_pk_username (u : User) (table : list User) :
  username (with_user_pk u table) = username u.
Proof. unfold with_user_pk. by destruct (user_pk u). Qed.

Lemma with_user_pk_password (u : User) (table : list User) :
  has_usable_password (with_user_pk u table) = has_usable_password u.
Proof. unfold with_user_pk. by destruct (user_pk u). Qed.

(** Once a profile is saved, its lookup keys resolve to some profile. *)
Lemma saved_profile_resolves (p : Profile) (table : list Profile) :
  is_Some (find_profile None (profile_identity p)
             (upsert profile_eq (with_profile_pk p table) table)).
Proof.
  unfold find_profile.
  destruct (find _ _) as [q|] eqn:Hfind; [by exists q|].
  pose proof (find_none _ _ Hfind (with_profile_pk p table)
                (upsert_In _ _ _ (profile_eq_refl _))) as Hno.
  unfold profile_matches in Hno.
  rewrite with_profile_pk_identity, bool_decide_eq_true_2 in Hno; done.
Qed.

(** The key handed out by [next_pk] is in use by no row. *)
Lemma next_pk_fresh {A} (pk : A → option nat) (table : list A) (row : A) :
  In row table → pk row ≠ Some (next_pk pk table).
Proof.
  unfold next_pk. intros Hin Heq.
  assert (Hle : ∀ k, In k (omap pk table) → k ≤ foldr Nat.max 0 (omap pk table)).
  { generalize (omap pk table). intros l. induction l as [|n l IH]; simpl; [done|].
    intros k [->|Hk]; [lia|]. specialize (IH k Hk). lia. }
  specialize (Hle (S (foldr Nat.max 0 (omap pk table)))).
  enough (S (foldr Nat.max 0 (omap pk table)) ≤ foldr Nat.max 0 (omap pk table)) by lia.
  apply Hle. apply list_elem_of_In, list_elem_of_omap. exists row.
  split; [by apply list_elem_of_In|done].
Qed.

(** The first save of a profile appends it to the table. *)
Lemma upsert_unsaved_profile (p : Profile) (table : list Profile) :
  profile_pk p = None →
  upsert profile_eq (with_profile_pk p table) table
  = table ++ [with_profile_pk p table].
Proof.
  intros Hnew. unfold upsert.
  destruct (existsb _ table) eqn:Hex; [|done].
  apply existsb_exists in Hex as (row & Hin & Hsame).
  unfold profile_eq in Hsame. apply bool_decide_eq_true in Hsame.
  unfold with_profile_pk in Hsame. rewrite Hnew in Hsame. simpl in Hsame.
  by destruct (next_pk_fresh profile_pk table row Hin).
Qed.

(** For an identity no stored profile has, the first save of a profile makes
    the lookup keys resolve to the profile's own user. *)
Lemma unsaved_profile_resolves_to_owner (p : Profile) (table : list Profile) :
  profile_pk p = None →
  find_profile None (profile_identity p) table = None →
  profile_user <$> find_profile None (profile_identity p)
                     (upsert profile_eq (with_profile_pk p table) table)
  = Some (profile_user p).
Proof.
  intros Hnew Hnone. rewrite upsert_unsaved_profile by done.
  unfold find_profile in *.
  assert (Happ : ∀ l, find (profile_matches None (profile_identity p)) l = None →
            find (profile_matches None (profile_identity p)) (l ++ [with_profile_pk p table])
            = Some (with_profile_pk p table)).
  { induction l as [|row l IH]; simpl.
    - intros _. unfold profile_matches.
      rewrite with_profile_pk_identity, bool_decide_eq_true_2; done.
    - destruct (profile_matches None (profile_identity p) row); [done|exact IH]. }
  rewrite Happ by done. simpl. by rewrite with_profile_pk_user.
Qed.

(** ** The setup step: [Setup.get] and [Setup.post] *)

Section SetupStep.

Variable settings : Settings.
Variable request : Request.
Variable w : World.
Variables (user : User) (profile : Profile) (c : Client).

Hypothesis anonymous : request_user w = AnonymousUser.
Hypothesis user_in_session :
  session w !! SESSION_USER_KEY settings = Some (SUser user).
Hypothesis profile_in_session :
  session w !! SESSION_PROFILE_KEY settings = Some (SProfile profile).
Hypothesis client_in_session :
  session w !! SESSION_CLIENT_KEY settings = Some (SClient c).

(** The pending triple is what [get_session_data] hands to the view. *)
Lemma get_session_data_pending :
  get_session_data settings w = (Ok (user, profile, c), w).
Proof.
  run_view. using user_in_session. using profile_in_session.
  using client_in_session. done.
Qed.

(** The stored "next" URL survives the removal of the pending keys. *)
Lemma next_survives_cleanup (next : string) :
  session w !! "next" = Some (SStr next) →
  without_pending settings (session w) !! "next" = Some (SStr next).
Proof.
  intros Hnext. unfold without_pending.
  rewrite !lookup_delete_ne; [done|intros Heq; rewrite Heq in *; congruence..].
Qed.

(** C7: in auto-generate mode a GET to Setup from an anonymous browser with
    the pending (user, profile, client) in its session does, in this order:
    save the user, whose username is the result of the username function on
    (user, profile, client) and whose password is unusable; save the profile
    linked to that user; authenticate again; send the connect signal; log
    in; send the login signal; delete the pending session data; and it
    answers with a redirect to the stored "next" URL. *)
Theorem Setup_get_generate_username (next : string) :
  GENERATE_USERNAME settings = true →
  session w !! "next" = Some (SStr next) →
  let named := set_unusable_password
                 (set_username (USERNAME_FUNCTION settings user profile c) user) in
  let saved_user := with_user_pk named (db_users w) in
  let saved_profile := with_profile_pk (set_profile_user saved_user profile)
                         (db_profiles w) in
  let run := Setup_get settings request w in
  ∃ logged_in,
    run.1 = Ok (HttpResponseRedirect next)
    ∧ events run.2 = events w ++
        [EvUserSave saved_user; EvProfileSave saved_profile;
         EvAuthenticate (profile_identity profile);
         EvConnectSignal (Some logged_in) saved_profile c;
         EvLogin logged_in;
         EvLoginSignal (Some logged_in) saved_profile c;
         EvDeleteSessionData]
    ∧ username saved_user = USERNAME_FUNCTION settings user profile c
    ∧ has_usable_password saved_user = false
    ∧ profile_user saved_profile = saved_user
    ∧ db_users run.2 = upsert user_eq saved_user (db_users w)
    ∧ db_profiles run.2 = upsert profile_eq saved_profile (db_profiles w)
    ∧ profile_user <$> find_profile None (profile_identity profile) (db_profiles run.2)
      = Some logged_in
    ∧ request_user run.2 = Authenticated logged_in
    ∧ session run.2 = without_pending settings (session w).
Proof.
  intros Hgen Hnext named saved_user saved_profile run.
  destruct (saved_profile_resolves (set_profile_user saved_user profile) (db_profiles w))
    as [resolved Hresolved].
  fold saved_profile in Hresolved. simpl in Hresolved.
  exists (profile_user resolved).
  pose proof (next_survives_cleanup next Hnext) as Hnext'.
  unfold without_pending in Hnext'.
  subst run. unfold Setup_get. run_view. using anonymous.
  using user_in_session. using profile_in_session. using client_in_session. using Hgen.
  unfold generate_username_and_redirect, get_username_function. run_view.
  fold named saved_user saved_profile.
  replace (profile_identity saved_profile) with (profile_identity profile)
    by (subst saved_profile; by rewrite with_profile_pk_identity).
  using Hresolved. using Hnext'.
  rewrite <- ?app_assoc. cbn [app].
  repeat split; try done.
  - subst saved_user named. by rewrite with_user_pk_username.
  - subst saved_user named. by rewrite with_user_pk_password.
  - subst saved_profile. by rewrite with_profile_pk_user.
  - by rewrite Hresolved.
Qed.

(** C9: a POST to Setup from an anonymous browser with the pending (user,
    profile, client) in its session and a form that does not validate
    re-renders the form, bound to the submitted data, and changes nothing:
    the tables, the login state, the trace of signals and the session,
    pending data included, are as before. *)
Theorem Setup_post_invalid_form :
  let form := mkForm (Some (POST request, FILES request))
                (get_initial_data settings request user profile c) in
  is_valid (FORM_CLASS settings) form = false →
  Setup_post settings request w
  = (Ok (SetupFormResponse form (get_context settings request user profile c)), w).
Proof.
  intros form Hinvalid.
  unfold Setup_post. run_view. using anonymous.
  using user_in_session. using profile_in_session. using client_in_session. unfold get_form. fold form. by using Hinvalid.
Qed.

End SetupStep.

(** ** The redirect start: [OAuthRedirect] *)

Section RedirectStart.

Variable settings : Settings.
Variable view : ViewClass.
Variable request : Request.
Variable w : World.

Local Abbreviation cls := (client view).
Local Abbreviation run := (OAuthRedirect_post settings view request w).

(** Both session writes of [OAuthRedirect.post] happen whatever the client
    answers afterwards. *)
Lemma OAuthRedirect_post_session :
  ∃ next,
    outcome (get_next settings) w = Ok next
    ∧ session run.2
      = <[get_session_key cls := SClient (new_client cls)]>
          (<["next" := SStr next]> (session w)).
Proof.
  unfold OAuthRedirect_post. run_view.
  destruct (session w !! "next") as [[url| | |]|]; run_view;
    (eexists; split; [reflexivity|]);
    destruct (get_redirect_url cls (new_client cls) request); by run_view.
Qed.

(** What escapes when the client cannot produce the authorization URL: the
    call is made before the [try] block is entered. *)
Lemma OAuthRedirect_post_client_failure (e : Exception) :
  get_redirect_url cls (new_client cls) request = Raise e →
  run.1 = Raise e.
Proof.
  intros Hfail. unfold OAuthRedirect_post. run_view.
  destruct (session w !! "next") as [[url| | |]|]; run_view; by using Hfail.
Qed.

(** The dispatcher sends only a POST to the handler; [OAuthRedirect]
    defines no [get]. *)
Lemma OAuthRedirect_dispatch_get :
  method request = M_GET →
  OAuthRedirect_dispatch settings view request w = (Ok HttpResponseNotAllowed, w).
Proof. intros Hget. unfold OAuthRedirect_dispatch. by rewrite Hget. Qed.

(** C10: [OAuthRedirect.post] writes "next" and the fresh client into the
    session before it asks the client for the authorization URL: after the
    view has run, the session is the old one with "next" set to the URL
    [get_next] gave and then the client key set to the fresh client, so
    both keys are present; this is so also when the client fails, in which
    case its exception leaves the view and the pending client stays in the
    session. *)
Theorem OAuthRedirect_post_session_written_first :
  ∃ next,
    outcome (get_next settings) w = Ok next
    ∧ session run.2
      = <[get_session_key cls := SClient (new_client cls)]>
          (<["next" := SStr next]> (session w))
    ∧ session run.2 !! get_session_key cls = Some (SClient (new_client cls))
    ∧ is_Some (session run.2 !! "next")
    ∧ (∀ e, get_redirect_url cls (new_client cls) request = Raise e →
            run.1 = Raise e).
Proof.
  destruct OAuthRedirect_post_session as (next & Hnext & Hsession).
  exists next. rewrite Hsession.
  split; [done|]. split; [done|].
  split; [by rewrite lookup_insert_eq|].
  split; [|exact OAuthRedirect_post_client_failure].
  rewrite lookup_insert. case_decide; [by eexists|].
  rewrite lookup_insert_eq. by eexists.
Qed.

(** C8, as amended: the redirect start handles its request on POST.  For
    every POST for which the client gives an authorization URL, the URL
    that [get_next] gave is stored under "next" and then the fresh client
    under the client's session key, the rest of the session is unchanged,
    and the response redirects the browser to the authorization URL.  The
    session holds the fresh client, and the "next" URL whenever the
    client's session key is not itself "next". *)
Theorem OAuthRedirect_dispatch_post_starts_handshake (url : string) :
  method request = M_POST →
  get_redirect_url cls (new_client cls) request = Ok url →
  starts_handshake settings view request w
  ∧ (OAuthRedirect_dispatch settings view request w).1 = Ok (HttpResponseRedirect url)
  ∧ session (OAuthRedirect_dispatch settings view request w).2
    = <[get_session_key cls := SClient (new_client cls)]>
        (<["next" := SStr (next_url settings (session w))]> (session w)).
Proof.
  intros Hpost Hurl.
  destruct OAuthRedirect_post_session as (next & Hnext & Hsession).
  assert (Hresp : run.1 = Ok (HttpResponseRedirect url)).
  { unfold OAuthRedirect_post. run_view.
    destruct (session w !! "next") as [[u| | |]|]; run_view; by using Hurl. }
  assert (Hnext' : next = next_url settings (session w)).
  { unfold outcome, get_next, next_url in *.
    destruct (session w !! "next") as [[]|]; simpl in Hnext; congruence. }
  unfold starts_handshake, OAuthRedirect_dispatch. rewrite Hpost. cbn zeta.
  split; [|split; [done|by rewrite Hsession, Hnext']].
  exists url, next. rewrite Hsession.
  split; [done|]. split; [done|]. split; [done|]. split; [done|].
  split; [by rewrite lookup_insert_eq|].
  intros Hkey. by rewrite lookup_insert_ne, lookup_insert_eq.
Qed.

End RedirectStart.

(** C8, as stated, fails: a GET to the redirect start is answered with
    "method not allowed"; nothing is stored in the session and no redirect
    is returned, although the client would have given an authorization
    URL. *)
Lemma OAuthRedirect_get_does_not_start_handshake :
  method a_get = M_GET
  ∧ get_redirect_url facebook (new_client facebook) a_get = Ok provider_url
  ∧ OAuthRedirect_dispatch (site_settings false true) (view_of facebook) a_get
      (mkWorld ∅ AnonymousUser [alice; bob; carol] database [])
    = (Ok HttpResponseNotAllowed,
       mkWorld ∅ AnonymousUser [alice; bob; carol] database [])
  ∧ ¬ starts_handshake (site_settings false true) (view_of facebook) a_get
        (mkWorld ∅ AnonymousUser [alice; bob; carol] database []).
Proof.
  split; [done|]. split; [done|]. split; [by apply OAuthRedirect_dispatch_get|].
  unfold starts_handshake. rewrite OAuthRedirect_dispatch_get by done.
  intros (url & next & _ & _ & Hresp & _). discriminate Hresp.
Qed.

(** ** The callback: [OAuthCallback] *)

Section Callback.

Variable view : ViewClass.
Variable request : Request.
Variable w : World.
Variable c : Client.

Hypothesis client_in_session :
  session w !! get_session_key (client view) = Some (SClient c).

(** An exception of [client.complete] other than [KeyError] reaches the
    clause [except error], whose class expression is an unbound name: what
    leaves the view is a [NameError]. *)
Lemma OAuthCallback_get_client_failure (e : Exception) :
  complete (client view) c (GET request) = Raise e →
  e ≠ KeyError →
  OAuthCallback_get view request w = (Raise (NameError "error"), w).
Proof.
  intros Hfail Hne. unfold OAuthCallback_get. run_view.
  using client_in_session. using Hfail. by destruct e.
Qed.

(** X8: the handshake that succeeds: the completed client is stored again
    under the client's session key and the browser is sent on to the URL of
    [get_redirect]; nothing else of the state changes. *)
Lemma OAuthCallback_get_completed (completed : Client) (url : string) :
  complete (client view) c (GET request) = Ok completed →
  get_redirect view = Some url →
  OAuthCallback_get view request w
  = (Ok (HttpResponseRedirect url),
     set_session (insert (get_session_key (client view)) (SClient completed)) w).
Proof.
  intros Hok Hurl. unfold OAuthCallback_get, OAuthCallback_get_redirect. run_view.
  using client_in_session. using Hok. by using Hurl.
Qed.

End Callback.

(** X7: a callback without the pending client in the session is answered
    with "Session expired."; [client.complete] is not called and the state
    is left as it was. *)
Lemma OAuthCallback_get_session_expired (view : ViewClass) (request : Request)
    (w : World) :
  session w !! get_session_key (client view) = None →
  OAuthCallback_get view request w = (Ok (ErrorResponse "Session expired."), w).
Proof.
  intros Hnone. unfold OAuthCallback_get. run_view. by using Hnone.
Qed.

(** C4, on the code: failures of the identity client are not turned into
    error responses.  A provider that rejects the callback, and one that
    times out, make [OAuthCallback.get] end in a [NameError]; the same
    failures in [client.get_redirect_url] leave [OAuthRedirect.post] as they
    are. *)
Theorem OAuth_client_failures_escape :
  outcome (OAuthCallback_get (view_of facebook_denied) a_get)
    (after_handshake facebook_denied remote_new AnonymousUser)
  = Raise (NameError "error")
  ∧ outcome (OAuthCallback_get (view_of facebook_timeout) a_get)
      (after_handshake facebook_timeout remote_new AnonymousUser)
    = Raise (NameError "error")
  ∧ outcome (OAuthRedirect_post (site_settings false true) (view_of facebook_denied)
               (a_post []))
      (mkWorld ∅ AnonymousUser [alice; bob; carol] database [])
    = Raise (ClientError "access_denied")
  ∧ outcome (OAuthRedirect_post (site_settings false true) (view_of facebook_timeout)
               (a_post []))
      (mkWorld ∅ AnonymousUser [alice; bob; carol] database [])
    = Raise SocketTimeout.
Proof.
  unfold outcome. split; [|split; [|split]].
  - by rewrite (OAuthCallback_get_client_failure (view_of facebook_denied) a_get
                  (after_handshake facebook_denied remote_new AnonymousUser)
                  (mkClient remote_new) eq_refl (ClientError "access_denied")).
  - by rewrite (OAuthCallback_get_client_failure (view_of facebook_timeout) a_get
                  (after_handshake facebook_timeout remote_new AnonymousUser)
                  (mkClient remote_new) eq_refl SocketTimeout).
  - by apply OAuthRedirect_post_client_failure.
  - by apply OAuthRedirect_post_client_failure.
Qed.

(** ** The theorems at work on the fixtures *)

(** Bob, logged in, comes back from the provider with Alice's identity. *)
Lemma SetupCallback_get_profile_of_another_user_bob :
  let w := after_handshake facebook remote_alice (Authenticated bob) in
  let run := SetupCallback_get (site_settings false true) (view_of facebook) a_get w in
  run.1 = Ok (ErrorResponse
                "This profile is already connected to another user account.")
  ∧ session run.2 = without_pending (site_settings false true) (session w)
  ∧ db_profiles run.2 = database
  ∧ db_users run.2 = [alice; bob; carol]
  ∧ events run.2 = [EvDeleteSessionData]
  ∧ request_user run.2 = Authenticated bob.
Proof.
  apply (SetupCallback_get_profile_of_another_user (site_settings false true)
           (view_of facebook) a_get
           (after_handshake facebook remote_alice (Authenticated bob))
           (mkClient remote_alice) eq_refl bob alice_profile);
    reflexivity.
Defined.

(** Alice, logged in, connects the identity she has connected before. *)
Lemma SetupCallback_get_reconnect_alice :
  let w := after_handshake facebook remote_alice (Authenticated alice) in
  let run := SetupCallback_get (site_settings false true) (view_of facebook) a_get w in
  run.1 = Ok (HttpResponseRedirect "/account/")
  ∧ db_profiles run.2 = database
  ∧ events run.2 = [EvConnectSignal (Some alice) alice_profile (mkClient remote_alice)]
  ∧ session run.2 = session w.
Proof.
  apply (SetupCallback_get_reconnect (site_settings false true)
           (view_of facebook) a_get
           (after_handshake facebook remote_alice (Authenticated alice))
           (mkClient remote_alice) eq_refl alice alice_profile "/account/");
    reflexivity.
Defined.

(** Alice, logged out, signs in through the provider. *)
Lemma SetupCallback_get_known_identity_alice :
  let w := after_handshake facebook remote_alice AnonymousUser in
  let run := SetupCallback_get (site_settings false true) (view_of facebook) a_get w in
  ∃ profile,
    find_profile (Some alice) remote_alice database = Some profile
    ∧ run.1 = Ok (HttpResponseRedirect "/account/")
    ∧ request_user run.2 = Authenticated alice
    ∧ events run.2 = [EvAuthenticate remote_alice; EvLogin alice;
                      EvLoginSignal (Some alice) profile (mkClient remote_alice)].
Proof.
  apply (SetupCallback_get_known_identity (site_settings false true)
           (view_of facebook) a_get
           (after_handshake facebook remote_alice AnonymousUser)
           (mkClient remote_alice) eq_refl alice "/account/");
    reflexivity.
Defined.

(** A new OpenID identity while OpenID signups are switched off. *)
Lemma SetupCallback_get_openid_signups_disabled_newcomer :
  let w := after_handshake openid remote_new AnonymousUser in
  let run := SetupCallback_get (site_settings false false) (view_of openid) a_get w in
  run.1 = Ok (ErrorResponse "We are not currently accepting new OpenID signups.")
  ∧ db_users run.2 = [alice; bob; carol]
  ∧ db_profiles run.2 = database
  ∧ session run.2 = session w
  ∧ events run.2 = [EvAuthenticate remote_new].
Proof.
  apply (SetupCallback_get_openid_signups_disabled (site_settings false false)
           (view_of openid) a_get
           (after_handshake openid remote_new AnonymousUser)
           (mkClient remote_new) eq_refl);
    reflexivity.
Defined.

(** Carol, whose account is inactive, tries to sign in. *)
Lemma SetupCallback_get_inactive_user_carol :
  let w := after_handshake facebook remote_carol AnonymousUser in
  let run := SetupCallback_get (site_settings false true) (view_of facebook) a_get w in
  run.1 = Ok InactiveResponse
  ∧ request_user run.2 = AnonymousUser
  ∧ events run.2 = [EvAuthenticate remote_carol]
  ∧ session run.2 = session w.
Proof.
  apply (SetupCallback_get_inactive_user (site_settings false true)
           (view_of facebook) a_get
           (after_handshake facebook remote_carol AnonymousUser)
           (mkClient remote_carol) eq_refl carol);
    reflexivity.
Defined.

(** The newcomer signs up in auto-generate mode. *)
Lemma Setup_get_generate_username_newcomer :
  let run := Setup_get (site_settings true true) a_get pending_signup in
  ∃ logged_in,
    run.1 = Ok (HttpResponseRedirect "/account/")
    ∧ events run.2 =
        [EvUserSave newcomer; EvProfileSave newcomer_profile;
         EvAuthenticate remote_new;
         EvConnectSignal (Some logged_in) newcomer_profile (mkClient remote_new);
         EvLogin logged_in;
         EvLoginSignal (Some logged_in) newcomer_profile (mkClient remote_new);
         EvDeleteSessionData]
    ∧ username newcomer = "user1999"
    ∧ has_usable_password newcomer = false
    ∧ profile_user newcomer_profile = newcomer
    ∧ db_users run.2 = [alice; bob; carol; newcomer]
    ∧ db_profiles run.2 = database ++ [newcomer_profile]
    ∧ profile_user <$> find_profile None remote_new (db_profiles run.2)
      = Some logged_in
    ∧ request_user run.2 = Authenticated logged_in
    ∧ session run.2 = without_pending (site_settings true true) (session pending_signup).
Proof.
  apply (Setup_get_generate_username (site_settings true true) a_get pending_signup
           (mkUser None "" true true)
           (mkProfile None (mkUser None "" true true) remote_new)
           (mkClient remote_new) eq_refl eq_refl eq_refl eq_refl "/account/");
    reflexivity.
Defined.

(** A setup form submitted without a username. *)
Lemma Setup_post_invalid_form_no_username :
  Setup_post (site_settings false true) (a_post [("email", "new@example.org")])
    pending_signup
  = (Ok (SetupFormResponse
           (mkForm (Some ([("email", "new@example.org")], [])) []) []),
     pending_signup).
Proof.
  apply (Setup_post_invalid_form (site_settings false true)
           (a_post [("email", "new@example.org")]) pending_signup
           (mkUser None "" true true)
           (mkProfile None (mkUser None "" true true) remote_new)
           (mkClient remote_new) eq_refl eq_refl eq_refl eq_refl);
    reflexivity.
Defined.

(** A POST to the redirect start. *)
Lemma OAuthRedirect_dispatch_post_facebook :
  let w := mkWorld ∅ AnonymousUser [alice; bob; carol] database [] in
  starts_handshake (site_settings false true) (view_of facebook) (a_post []) w
  ∧ (OAuthRedirect_dispatch (site_settings false true) (view_of facebook) (a_post []) w).1
    = Ok (HttpResponseRedirect provider_url)
  ∧ session (OAuthRedirect_dispatch (site_settings false true) (view_of facebook)
               (a_post []) w).2
    = <["facebook" := SClient (mkClient [])]> (<["next" := SStr "/"]> ∅).
Proof.
  exact (OAuthRedirect_dispatch_post_starts_handshake (site_settings false true)
           (view_of facebook) (a_post [])
           (mkWorld ∅ AnonymousUser [alice; bob; carol] database [])
           provider_url eq_refl eq_refl).
Defined.

(** ** Further properties of the decision flow *)

Lemma get_next_next_url (settings : Settings) (w : World) :
  get_next settings w = (Ok (next_url settings (session w)), w).
Proof.
  unfold get_next, next_url.
  by destruct (session w !! "next") as [[]|].
Qed.

(** No profile for the lookup keys means none for them and a given owner. *)
Lemma find_profile_none_owner (kwargs : Dict) (table : list Profile) (u : User) :
  find_profile None kwargs table = None →
  find_profile (Some u) kwargs table = None.
Proof.
  unfold find_profile.
  induction table as [|row table IH]; simpl; [done|].
  unfold profile_matches at 1 3.
  destruct (bool_decide (profile_identity row = kwargs)); simpl; [done|exact IH].
Qed.

(** A profile found for an owner is a profile found for the lookup keys. *)
Lemma find_profile_owner_some (kwargs : Dict) (table : list Profile)
    (u : User) (p : Profile) :
  find_profile (Some u) kwargs table = Some p →
  is_Some (find_profile None kwargs table).
Proof.
  intros Hfound.
  destruct (find_profile None kwargs table) eqn:Hnone; [by eexists|].
  by rewrite (find_profile_none_owner _ _ u Hnone) in Hfound.
Qed.

(** The first save of a user appends it to the table. *)
Lemma upsert_unsaved_user (u : User) (table : list User) :
  user_pk u = None →
  upsert user_eq (with_user_pk u table) table = table ++ [with_user_pk u table].
Proof.
  intros Hnew. unfold upsert.
  destruct (existsb _ table) eqn:Hex; [|done].
  apply existsb_exists in Hex as (row & Hin & Hsame).
  unfold user_eq in Hsame. apply bool_decide_eq_true in Hsame.
  unfold with_user_pk in Hsame. rewrite Hnew in Hsame. simpl in Hsame.
  by destruct (next_pk_fresh user_pk table row Hin).
Qed.

(** X1: without the identity client in the session the decision flow
    answers "Session expired." and leaves the whole state as it was,
    whoever is logged in. *)
Theorem SetupCallback_get_session_expired (settings : Settings) (view : ViewClass)
    (request : Request) (w : World) :
  session w !! get_session_key (client view) = None →
  SetupCallback_get settings view request w
  = (Ok (ErrorResponse "Session expired."), w).
Proof.
  intros Hnone. unfold SetupCallback_get. run_view. by using Hnone.
Qed.

Section DecisionFlowMore.

Variable settings : Settings.
Variable view : ViewClass.
Variable request : Request.
Variable w : World.
Variable c : Client.

Hypothesis client_in_session :
  session w !! get_session_key (client view) = Some (SClient c).

Local Abbreviation lookup_kwargs := (get_lookup_kwargs view request c).
Local Abbreviation run := (SetupCallback_get settings view request w).

(** X2: a logged-in user U completes a handshake for an identity no profile
    is stored for.  One profile, owned by U and carrying the lookup keys, is
    appended to the profile table under a fresh primary key; the connect
    signal is sent with (U, that profile, client); the user table, the
    session and the login state are unchanged; the response redirects to
    the "next" URL of the session. *)
Theorem SetupCallback_get_connects_new_profile (U : User) :
  request_user w = Authenticated U →
  find_profile None lookup_kwargs (db_profiles w) = None →
  let profile := connected_profile U lookup_kwargs (db_profiles w) in
  run = (Ok (HttpResponseRedirect (next_url settings (session w))),
         mkWorld (session w) (Authenticated U) (db_users w)
           (db_profiles w ++ [profile])
           (events w ++ [EvProfileSave profile; EvConnectSignal (Some U) profile c])).
Proof.
  intros HU Hnone profile.
  pose proof (find_profile_none_owner _ _ U Hnone) as Hnone'.
  unfold SetupCallback_get, get_or_create_profile. run_view.
  using client_in_session. using HU. using Hnone. using Hnone'.
  rewrite (upsert_unsaved_profile (mkProfile None U lookup_kwargs)) by done.
  unfold next_url. cbn [with_profile_pk profile_pk profile_user profile_identity].
  subst profile. unfold connected_profile. rewrite <- ?app_assoc. cbn [app].
  destruct (session w !! "next") as [[]|]; by rewrite HU.
Qed.

(** X3: an anonymous browser completes a handshake for an identity no
    profile is stored for, and the OpenID gate is open (signups are allowed,
    or the client is not the OpenID client).  The unsaved user, the unsaved
    profile for the lookup keys and the client are stored in the session,
    the response redirects to the setup step, and nothing is written to the
    tables and nobody is logged in. *)
Theorem SetupCallback_get_begins_signup :
  request_user w = AnonymousUser →
  find_profile None lookup_kwargs (db_profiles w) = None →
  ALLOW_OPENID_SIGNUPS settings = true ∨ is_OpenIDClient (client view) = false →
  let user := mkUser None "" true true in
  run = (Ok (HttpResponseRedirect (SETUP_URL settings)),
         mkWorld (with_pending settings user (mkProfile None user lookup_kwargs) c
                    (session w))
           AnonymousUser (db_users w) (db_profiles w)
           (events w ++ [EvAuthenticate lookup_kwargs])).
Proof.
  intros Hanon Hnone Hgate user.
  unfold SetupCallback_get. run_view.
  using client_in_session. using Hanon. using Hnone.
  by destruct Hgate as [-> | ->]; [|rewrite andb_false_r]; run_view.
Qed.

End DecisionFlowMore.

(** Case analysis on whatever the view branches on next. *)
Ltac branch :=
  run_view;
  match goal with
  | |- context [match ?x with _ => _ end] =>
      lazymatch x with
      | context [match _ with _ => _ end] => fail
      | _ => destruct x eqn:?
      end
  end.

(** X4: what the decision flow can write to the tables, for every request
    and state.  It never writes the user table.  The profile table is
    either left as it was or, for a logged-in user whose handshake brought
    an identity no profile is stored for, extended at the end by exactly one
    profile, owned by that user and carrying the lookup keys. *)
Theorem SetupCallback_get_table_writes (settings : Settings) (view : ViewClass)
    (request : Request) (w : World) :
  let w' := final (SetupCallback_get settings view request) w in
  db_users w' = db_users w
  ∧ (db_profiles w' = db_profiles w
     ∨ ∃ U c,
         request_user w = Authenticated U
         ∧ session w !! get_session_key (client view) = Some (SClient c)
         ∧ find_profile None (get_lookup_kwargs view request c) (db_profiles w) = None
         ∧ db_profiles w'
           = db_profiles w
             ++ [connected_profile U (get_lookup_kwargs view request c) (db_profiles w)]).
Proof.
  cbn zeta. unfold SetupCallback_get, get_or_create_profile.
  repeat branch; run_view; try (split; [done|by left]).
  all: split; [done|]; right; eexists _, _.
  all: repeat split; try done.
  all: by rewrite (upsert_unsaved_profile (mkProfile None _ _)).
Qed.

(** X5: whom the decision flow logs in, for every request and state.
    [request.user] is either left as it was or the browser was anonymous
    and is now bound to the user that [authenticate] resolved from the
    lookup keys, and that user is active: an inactive user is never logged
    in and a logged-in user is never replaced. *)
Theorem SetupCallback_get_login_only_active (settings : Settings)
    (view : ViewClass) (request : Request) (w : World) :
  let w' := final (SetupCallback_get settings view request) w in
  request_user w' = request_user w
  ∨ ∃ c u,
      request_user w = AnonymousUser
      ∧ session w !! get_session_key (client view) = Some (SClient c)
      ∧ outcome (authenticate (get_lookup_kwargs view request c)) w = Ok (Some u)
      ∧ is_active u = true
      ∧ request_user w' = Authenticated u.
Proof.
  cbn zeta. unfold SetupCallback_get, get_or_create_profile.
  repeat branch; run_view; try (by left).
  all: right; eexists _, _; repeat split; try done.
  all: try (by apply negb_false_iff).
  all: congruence.
Qed.

(** ** Further properties of the redirect start and the callback *)

(** X6: a [KeyError] raised by [client.complete] itself is caught by the
    clause meant for the missing session key: the browser is told "Session
    expired." although the client was in the session, and the state is left
    as it was. *)
Theorem OAuthCallback_get_complete_KeyError (view : ViewClass) (request : Request)
    (w : World) (c : Client) :
  session w !! get_session_key (client view) = Some (SClient c) →
  complete (client view) c (GET request) = Raise KeyError →
  OAuthCallback_get view request w = (Ok (ErrorResponse "Session expired."), w).
Proof.
  intros Hc Hfail. unfold OAuthCallback_get. run_view.
  using Hc. by using Hfail.
Qed.

(** X9: a callback view that does not override [get_redirect].  The
    handshake is completed and the completed client is stored, and only
    then does [get_redirect] raise [NotImplementedError] inside the [try]
    block; what leaves the view is the [NameError] of the clause
    [except error]. *)
Theorem OAuthCallback_get_without_get_redirect (view : ViewClass)
    (request : Request) (w : World) (c completed : Client) :
  session w !! get_session_key (client view) = Some (SClient c) →
  complete (client view) c (GET request) = Ok completed →
  get_redirect view = None →
  OAuthCallback_get view request w
  = (Raise (NameError "error"),
     set_session (insert (get_session_key (client view)) (SClient completed)) w).
Proof.
  intros Hc Hok Hbase. unfold OAuthCallback_get, OAuthCallback_get_redirect.
  run_view. using Hc. using Hok. by using Hbase.
Qed.

(** X10: neither the redirect start nor the callback logs anybody in,
    writes a table or calls an observer, whatever the request, the state
    and the client's answers: of the state they can change the session
    only. *)
Theorem OAuth_views_change_session_only (settings : Settings) (view : ViewClass)
    (request : Request) (w : World) :
  let started := final (OAuthRedirect_post settings view request) w in
  let called_back := final (OAuthCallback_get view request) w in
  (request_user started = request_user w
   ∧ db_users started = db_users w
   ∧ db_profiles started = db_profiles w
   ∧ events started = events w)
  ∧ (request_user called_back = request_user w
     ∧ db_users called_back = db_users w
     ∧ db_profiles called_back = db_profiles w
     ∧ events called_back = events w).
Proof.
  cbn zeta. split.
  - unfold OAuthRedirect_post. repeat branch; by run_view.
  - unfold OAuthCallback_get, OAuthCallback_get_redirect.
    repeat branch; by run_view.
Qed.

(** X11: the callback after the redirect start.  Whatever the client
    answered when asked for the authorization URL, the client that the
    redirect start stored is the one the callback completes: when
    [complete] succeeds on the fresh client, the callback stores the
    completed client under the same key and redirects to the next step; it
    never reports an expired session. *)
Theorem OAuthCallback_get_after_OAuthRedirect_post (settings : Settings)
    (view : ViewClass) (start callback : Request) (w : World)
    (completed : Client) (url : string) :
  complete (client view) (new_client (client view)) (GET callback) = Ok completed →
  get_redirect view = Some url →
  let started := final (OAuthRedirect_post settings view start) w in
  OAuthCallback_get view callback started
  = (Ok (HttpResponseRedirect url),
     set_session (insert (get_session_key (client view)) (SClient completed)) started).
Proof.
  intros Hok Hurl started.
  destruct (OAuthRedirect_post_session settings view start w) as (next & _ & Hsession).
  fold (final (OAuthRedirect_post settings view start) w) in Hsession.
  fold started in Hsession.
  assert (Hc : session started !! get_session_key (client view)
               = Some (SClient (new_client (client view))))
    by (by rewrite Hsession, lookup_insert_eq).
  unfold OAuthCallback_get, OAuthCallback_get_redirect. run_view.
  using Hc. using Hok. by using Hurl.
Qed.

(** X12: starting the handshake twice.  When the client's session key is
    not "next", a second POST to the redirect start leaves the session as
    the first one left it: the stored "next" URL is read back and written
    again, and the client is replaced by another fresh one. *)
Theorem OAuthRedirect_post_twice (settings : Settings) (view : ViewClass)
    (first second : Request) (w : World) :
  get_session_key (client view) ≠ "next" →
  let once := final (OAuthRedirect_post settings view first) w in
  session (final (OAuthRedirect_post settings view second) once) = session once.
Proof.
  intros Hkey once.
  destruct (OAuthRedirect_post_session settings view first w) as (n1 & _ & H1).
  destruct (OAuthRedirect_post_session settings view second once) as (n2 & Hn2 & H2).
  fold (final (OAuthRedirect_post settings view first) w) in H1. fold once in H1.
  fold (final (OAuthRedirect_post settings view second) once) in H2.
  unfold outcome in Hn2. rewrite get_next_next_url in Hn2. simpl in Hn2.
  unfold next_url in Hn2.
  rewrite H1, lookup_insert_ne, lookup_insert_eq in Hn2 by done.
  injection Hn2 as <-.
  rewrite H2, H1. apply map_eq. intros k.
  rewrite !lookup_insert. by repeat case_decide.
Qed.

(** ** Further properties of the setup step *)

(** Reading the pending triple changes nothing. *)
Lemma get_session_data_final (settings : Settings) (w : World) :
  final (get_session_data settings) w = w.
Proof. repeat branch; by run_view. Qed.

(** X13: the setup step does nothing for a visitor who is logged in,
    whatever the method, the settings and the session hold: the state is
    left as it was, a GET is sent on to the "next" URL and a POST is
    answered with "You are already logged in.", also when a valid form and
    a pending signup are at hand. *)
Theorem Setup_dispatch_logged_in (settings : Settings) (request : Request)
    (w : World) (U : User) :
  request_user w = Authenticated U →
  final (Setup_dispatch settings request) w = w
  ∧ (method request = M_GET →
     outcome (Setup_dispatch settings request) w
     = Ok (HttpResponseRedirect (next_url settings (session w))))
  ∧ (method request = M_POST →
     outcome (Setup_dispatch settings request) w
     = Ok (ErrorResponse "You are already logged in.")).
Proof.
  intros HU. unfold Setup_dispatch, Setup_get, Setup_post, http_method_not_allowed, next_url.
  destruct (method request); run_view; rewrite ?HU; run_view;
    (split; [|split; intros; try done]);
    by destruct (session w !! "next") as [[]|].
Qed.

(** X14: the setup step without a complete pending signup.  When a key of
    the pending triple is missing from the session of an anonymous browser,
    a GET is answered with "Social profile is missing from your session."
    and a POST with "A social profile is missing from your session."; the
    state is left as it was, so no account is created from the submitted
    form alone. *)
Theorem Setup_missing_session_data (settings : Settings) (request : Request)
    (w : World) :
  request_user w = AnonymousUser →
  outcome (get_session_data settings) w = Raise KeyError →
  Setup_get settings request w
  = (Ok (ErrorResponse "Social profile is missing from your session."), w)
  ∧ Setup_post settings request w
    = (Ok (ErrorResponse "A social profile is missing from your session."), w).
Proof.
  intros Hanon Hmissing.
  pose proof (get_session_data_final settings w) as Hsame.
  unfold outcome in Hmissing. unfold final in Hsame.
  destruct (get_session_data settings w) as [r w'] eqn:Hdata.
  simpl in Hmissing, Hsame. subst r w'.
  unfold Setup_get, Setup_post.
  cbv beta iota zeta delta
    [try_except handle isinstance mbind M_bind mret M_ret get_request_user
     error_to_response].
  rewrite Hanon. cbn [is_authenticated]. cbv beta. by rewrite Hdata.
Qed.

Section SetupStepMore.

Variable settings : Settings.
Variable request : Request.
Variable w : World.
Variables (user : User) (profile : Profile) (c : Client).

Hypothesis anonymous : request_user w = AnonymousUser.
Hypothesis user_in_session :
  session w !! SESSION_USER_KEY settings = Some (SUser user).
Hypothesis profile_in_session :
  session w !! SESSION_PROFILE_KEY settings = Some (SProfile profile).
Hypothesis client_in_session :
  session w !! SESSION_CLIENT_KEY settings = Some (SClient c).

(** X15: in form mode a GET to the setup step, from an anonymous browser
    with the pending triple in its session, renders the unbound form with
    the initial data and the extra context of the configured functions
    (empty when none is configured) and leaves the state as it was: nothing
    is saved and the pending signup stays in the session. *)
Theorem Setup_get_renders_form :
  GENERATE_USERNAME settings = false →
  Setup_get settings request w
  = (Ok (SetupFormResponse
           (mkForm None (get_initial_data settings request user profile c))
           (get_context settings request user profile c)), w).
Proof.
  intros Hform. unfold Setup_get. run_view. using anonymous.
  using user_in_session. using profile_in_session. using client_in_session.
  by using Hform.
Qed.

(** X16: a valid form posted to the setup step from an anonymous browser
    with the pending triple in its session completes the signup: the user
    with the form's cleaned fields is saved, then the profile linked to it,
    then come the second authentication, the connect signal, the login, the
    login signal and the removal of the pending keys, and the response
    redirects to the "next" URL left in the session.  The user logged in is
    the one the saved profile's lookup keys resolve to. *)
Theorem Setup_post_valid_form :
  let form := mkForm (Some (POST request, FILES request))
                (get_initial_data settings request user profile c) in
  let named := cleaned_user (FORM_CLASS settings) form user in
  is_valid (FORM_CLASS settings) form = true →
  ∃ logged_in,
    Setup_post settings request w
    = (Ok (HttpResponseRedirect
             (next_url settings (without_pending settings (session w)))),
       completed_signup settings named profile c logged_in w)
    ∧ profile_user <$>
        find_profile None (profile_identity profile)
          (db_profiles (completed_signup settings named profile c logged_in w))
      = Some logged_in.
Proof.
  intros form named Hvalid.
  set (saved_user := with_user_pk named (db_users w)).
  destruct (saved_profile_resolves (set_profile_user saved_user profile) (db_profiles w))
    as [resolved Hresolved].
  simpl in Hresolved.
  exists (profile_user resolved).
  split; [|by unfold completed_signup; cbn [db_profiles]; fold saved_user; rewrite Hresolved].
  unfold Setup_post, form_save, get_form. run_view. using anonymous.
  using user_in_session. using profile_in_session. using client_in_session.
  fold form. using Hvalid. fold named saved_user.
  rewrite with_profile_pk_identity. cbn [set_profile_user profile_identity].
  using Hresolved.
  unfold completed_signup, next_url, without_pending. fold saved_user.
  rewrite <- ?app_assoc. cbn [app].
  by destruct (_ !! "next") as [[]|].
Qed.

End SetupStepMore.


(** ** The signup from the decision flow to the setup step *)

(** For an identity no stored profile has, the lookup keys resolve, after
    the first save of a profile, to that profile. *)
Lemma unsaved_profile_found (p : Profile) (table : list Profile) :
  profile_pk p = None →
  find_profile None (profile_identity p) table = None →
  find_profile None (profile_identity p)
    (upsert profile_eq (with_profile_pk p table) table)
  = Some (with_profile_pk p table).
Proof.
  intros Hnew Hnone. rewrite upsert_unsaved_profile by done.
  pose proof (with_profile_pk_identity p table) as Hid.
  set (q := with_profile_pk p table) in *. clearbody q.
  unfold find_profile in *.
  induction table as [|row rest IH]; simpl in *.
  - unfold profile_matches. rewrite Hid, bool_decide_eq_true_2; done.
  - destruct (profile_matches None (profile_identity p) row); [done|by apply IH].
Qed.

(** The pending keys written and then removed leave the session as if they
    had only been removed. *)
Lemma without_pending_with_pending (settings : Settings) (user : User)
    (profile : Profile) (c : Client) (s : gmap string SessionValue) :
  without_pending settings (with_pending settings user profile c s)
  = without_pending settings s.
Proof.
  unfold without_pending, with_pending. apply map_eq. intros k.
  rewrite !lookup_delete, !lookup_insert. by repeat case_decide.
Qed.

(** X18: a whole signup in auto-generate mode.  An anonymous browser brings
    an identity no profile is stored for, the OpenID gate is open, and the
    four session keys the views use are distinct.  The decision flow sends
    the browser to the setup step, and the GET to the setup step that
    follows creates exactly one user and one profile: the user gets a fresh
    primary key, the generated username and an unusable password; the
    profile links that user to the lookup keys; that same user is the one
    logged in and named in both signals; the pending keys are gone from the
    session and the browser is sent to the "next" URL it came with. *)
Theorem signup_with_generated_username (settings : Settings) (view : ViewClass)
    (callback setup : Request) (w : World) (c : Client) :
  request_user w = AnonymousUser →
  session w !! get_session_key (client view) = Some (SClient c) →
  find_profile None (get_lookup_kwargs view callback c) (db_profiles w) = None →
  ALLOW_OPENID_SIGNUPS settings = true ∨ is_OpenIDClient (client view) = false →
  GENERATE_USERNAME settings = true →
  NoDup ["next"; SESSION_USER_KEY settings; SESSION_PROFILE_KEY settings;
         SESSION_CLIENT_KEY settings] →
  let kwargs := get_lookup_kwargs view callback c in
  let blank := mkUser None "" true true in
  let name := USERNAME_FUNCTION settings blank (mkProfile None blank kwargs) c in
  let new_user := mkUser (Some (next_pk user_pk (db_users w))) name true false in
  let new_profile := mkProfile (Some (next_pk profile_pk (db_profiles w)))
                       new_user kwargs in
  outcome (SetupCallback_get settings view callback) w
  = Ok (HttpResponseRedirect (SETUP_URL settings))
  ∧ Setup_get settings setup (final (SetupCallback_get settings view callback) w)
    = (Ok (HttpResponseRedirect (next_url settings (session w))),
       mkWorld (without_pending settings (session w))
         (Authenticated new_user)
         (db_users w ++ [new_user])
         (db_profiles w ++ [new_profile])
         (events w ++
            [EvAuthenticate kwargs;
             EvUserSave new_user; EvProfileSave new_profile;
             EvAuthenticate kwargs;
             EvConnectSignal (Some new_user) new_profile c;
             EvLogin new_user;
             EvLoginSignal (Some new_user) new_profile c;
             EvDeleteSessionData])).
Proof.
  intros Hanon Hc Hnone Hgate Hgen Hkeys kwargs blank name new_user new_profile.
  assert (Hne : "next" ≠ SESSION_USER_KEY settings
                ∧ "next" ≠ SESSION_PROFILE_KEY settings
                ∧ "next" ≠ SESSION_CLIENT_KEY settings
                ∧ SESSION_USER_KEY settings ≠ SESSION_PROFILE_KEY settings
                ∧ SESSION_USER_KEY settings ≠ SESSION_CLIENT_KEY settings
                ∧ SESSION_PROFILE_KEY settings ≠ SESSION_CLIENT_KEY settings).
  { rewrite !NoDup_cons, !not_elem_of_cons in Hkeys.
    destruct Hkeys as ((? & ? & ? & _) & (? & ? & _) & (? & _) & _). done. }
  destruct Hne as (Hnu & Hnp & Hnc & Hup & Huc & Hpc).
  set (pending := mkProfile None blank kwargs).
  assert (Hfirst : SetupCallback_get settings view callback w
                   = (Ok (HttpResponseRedirect (SETUP_URL settings)),
                      mkWorld (with_pending settings blank pending c (session w))
                        AnonymousUser (db_users w) (db_profiles w)
                        (events w ++ [EvAuthenticate kwargs]))).
  { unfold SetupCallback_get. run_view.
    using Hc. using Hanon. using Hnone.
    by destruct Hgate as [-> | ->]; [|rewrite andb_false_r]; run_view. }
  unfold outcome, final. rewrite Hfirst. split; [done|]. cbn [snd].
  set (s1 := with_pending settings blank pending c (session w)).
  assert (Hs1u : s1 !! SESSION_USER_KEY settings = Some (SUser blank)).
  { subst s1. unfold with_pending.
    do 2 (rewrite lookup_insert_ne by done). by rewrite lookup_insert_eq. }
  assert (Hs1p : s1 !! SESSION_PROFILE_KEY settings = Some (SProfile pending)).
  { subst s1. unfold with_pending.
    rewrite lookup_insert_ne by done. by rewrite lookup_insert_eq. }
  assert (Hs1c : s1 !! SESSION_CLIENT_KEY settings = Some (SClient c)).
  { subst s1. unfold with_pending. by rewrite lookup_insert_eq. }
  assert (Hclean : without_pending settings s1 = without_pending settings (session w))
    by apply without_pending_with_pending.
  set (named := set_unusable_password (set_username name blank)).
  assert (Huser : with_user_pk named (db_users w) = new_user) by done.
  assert (Hprofile : with_profile_pk (set_profile_user new_user pending) (db_profiles w)
                     = new_profile) by done.
  assert (Hfound : find_profile None (profile_identity new_profile)
                     (upsert profile_eq new_profile (db_profiles w))
                   = Some new_profile)
    by exact (unsaved_profile_found (set_profile_user new_user pending)
                (db_profiles w) eq_refl Hnone).
  assert (Husers : upsert user_eq new_user (db_users w) = db_users w ++ [new_user])
    by exact (upsert_unsaved_user named (db_users w) eq_refl).
  assert (Hprofiles : upsert profile_eq new_profile (db_profiles w)
                      = db_profiles w ++ [new_profile])
    by exact (upsert_unsaved_profile (set_profile_user new_user pending)
                (db_profiles w) eq_refl).
  unfold Setup_get, generate_username_and_redirect, get_username_function.
  run_view. using Hs1u. using Hs1p. using Hs1c. using Hgen.
  change (with_user_pk
            (set_unusable_password
               (set_username (USERNAME_FUNCTION settings blank pending c) blank))
            (db_users w)) with new_user.
  change (with_profile_pk (set_profile_user new_user pending) (db_profiles w))
    with new_profile.
  using Hfound. rewrite Husers, Hprofiles.
  fold (without_pending settings s1).
  rewrite Hclean, <- ?app_assoc. cbn [app].
  unfold next_url, without_pending. rewrite !lookup_delete_ne by done.
  by destruct (session w !! "next") as [[]|].
Qed.

(** X19: connecting the same identity twice.  After a logged-in user U has
    connected an identity no profile was stored for, a second run of the
    decision flow with the same handshake finds the profile the first run
    saved: the profile table is not written again, and the connect signal
    is sent once more with that same profile. *)
Theorem SetupCallback_get_connect_twice (settings : Settings) (view : ViewClass)
    (request : Request) (w : World) (c : Client) (U : User) :
  session w !! get_session_key (client view) = Some (SClient c) →
  request_user w = Authenticated U →
  find_profile None (get_lookup_kwargs view request c) (db_profiles w) = None →
  let profile := connected_profile U (get_lookup_kwargs view request c) (db_profiles w) in
  let once := final (SetupCallback_get settings view request) w in
  db_profiles once = db_profiles w ++ [profile]
  ∧ SetupCallback_get settings view request once
    = (Ok (HttpResponseRedirect (next_url settings (session w))),
       mkWorld (session w) (Authenticated U) (db_users w) (db_profiles w ++ [profile])
         (events once ++ [EvConnectSignal (Some U) profile c])).
Proof.
  intros Hc HU Hnone profile once.
  pose proof (find_profile_none_owner _ _ U Hnone) as Hnone'.
  assert (Hfound : find_profile None (profile_identity profile)
                     (upsert profile_eq profile (db_profiles w)) = Some profile)
    by exact (unsaved_profile_found
                (mkProfile None U (get_lookup_kwargs view request c))
                (db_profiles w) eq_refl Hnone).
  assert (Hprofiles : upsert profile_eq profile (db_profiles w)
                      = db_profiles w ++ [profile])
    by exact (upsert_unsaved_profile
                (mkProfile None U (get_lookup_kwargs view request c))
                (db_profiles w) eq_refl).
  rewrite Hprofiles in Hfound. cbn [profile profile_identity connected_profile] in Hfound.
  assert (Honce : once = mkWorld (session w) (Authenticated U) (db_users w)
                           (db_profiles w ++ [profile])
                           (events w ++ [EvProfileSave profile;
                                         EvConnectSignal (Some U) profile c])).
  { subst once. unfold SetupCallback_get, get_or_create_profile. run_view.
    using Hc. using HU. using Hnone. using Hnone'.
    change (with_profile_pk (mkProfile None U (get_lookup_kwargs view request c))
              (db_profiles w)) with profile.
    rewrite Hprofiles, <- ?app_assoc. cbn [app].
    destruct (session w !! "next") as [[]|]; by rewrite HU. }
  rewrite Honce. split; [done|].
  unfold SetupCallback_get. run_view. using Hc. using Hfound.
  change (profile_user profile) with U. rewrite user_eq_refl. run_view.
  unfold next_url. by destruct (session w !! "next") as [[]|].
Qed.

(** ** The further properties at work on the fixtures *)

(** A browser whose session holds no client. *)
Lemma SetupCallback_get_session_expired_fresh_browser :
  SetupCallback_get (site_settings false true) (view_of facebook) a_get
    (mkWorld ∅ (Authenticated bob) [alice; bob; carol] database [])
  = (Ok (ErrorResponse "Session expired."),
     mkWorld ∅ (Authenticated bob) [alice; bob; carol] database []).
Proof.
  apply (SetupCallback_get_session_expired (site_settings false true)
           (view_of facebook) a_get
           (mkWorld ∅ (Authenticated bob) [alice; bob; carol] database []));
    reflexivity.
Defined.

(** Bob, logged in, connects an identity nobody has connected. *)
Lemma SetupCallback_get_connects_new_profile_bob :
  let w := after_handshake facebook remote_new (Authenticated bob) in
  SetupCallback_get (site_settings false true) (view_of facebook) a_get w
  = (Ok (HttpResponseRedirect "/account/"),
     mkWorld (session w) (Authenticated bob) [alice; bob; carol]
       (database ++ [bob_profile])
       [EvProfileSave bob_profile;
        EvConnectSignal (Some bob) bob_profile (mkClient remote_new)]).
Proof.
  apply (SetupCallback_get_connects_new_profile (site_settings false true)
           (view_of facebook) a_get
           (after_handshake facebook remote_new (Authenticated bob))
           (mkClient remote_new) eq_refl bob);
    reflexivity.
Defined.

(** A newcomer arrives through a provider that is not OpenID while OpenID
    signups are switched off. *)
Lemma SetupCallback_get_begins_signup_newcomer :
  let w := after_handshake facebook remote_new AnonymousUser in
  let user := mkUser None "" true true in
  SetupCallback_get (site_settings false false) (view_of facebook) a_get w
  = (Ok (HttpResponseRedirect "/social/setup/"),
     mkWorld (with_pending (site_settings false false) user
                (mkProfile None user remote_new) (mkClient remote_new) (session w))
       AnonymousUser [alice; bob; carol] database [EvAuthenticate remote_new]).
Proof.
  apply (SetupCallback_get_begins_signup (site_settings false false)
           (view_of facebook) a_get
           (after_handshake facebook remote_new AnonymousUser)
           (mkClient remote_new) eq_refl eq_refl eq_refl (or_intror eq_refl)).
Defined.

(** The provider's client raises [KeyError] on the callback parameters. *)
Lemma OAuthCallback_get_complete_KeyError_facebook :
  let w := after_handshake facebook_keyerror remote_new AnonymousUser in
  OAuthCallback_get (view_of facebook_keyerror) a_get w
  = (Ok (ErrorResponse "Session expired."), w).
Proof.
  apply (OAuthCallback_get_complete_KeyError (view_of facebook_keyerror) a_get
           (after_handshake facebook_keyerror remote_new AnonymousUser)
           (mkClient remote_new));
    reflexivity.
Defined.

(** A callback with no client in the session. *)
Lemma OAuthCallback_get_session_expired_fresh_browser :
  OAuthCallback_get (view_of facebook) a_get
    (mkWorld ∅ AnonymousUser [alice; bob; carol] database [])
  = (Ok (ErrorResponse "Session expired."),
     mkWorld ∅ AnonymousUser [alice; bob; carol] database []).
Proof.
  apply (OAuthCallback_get_session_expired (view_of facebook) a_get
           (mkWorld ∅ AnonymousUser [alice; bob; carol] database []));
    reflexivity.
Defined.

(** The provider sends the browser back with the identity. *)
Lemma OAuthCallback_get_completed_facebook :
  let request := mkRequest M_GET remote_new [] [] in
  let w := after_handshake facebook [] AnonymousUser in
  OAuthCallback_get (view_of facebook) request w
  = (Ok (HttpResponseRedirect "/social/setup/callback/"),
     set_session (insert "facebook" (SClient (mkClient remote_new))) w).
Proof.
  apply (OAuthCallback_get_completed (view_of facebook)
           (mkRequest M_GET remote_new [] [])
           (after_handshake facebook [] AnonymousUser)
           (mkClient []) eq_refl (mkClient remote_new)
           "/social/setup/callback/");
    reflexivity.
Defined.

(** The same callback on a view class that keeps the base [get_redirect]. *)
Lemma OAuthCallback_get_without_get_redirect_facebook :
  let request := mkRequest M_GET remote_new [] [] in
  let w := after_handshake facebook [] AnonymousUser in
  OAuthCallback_get (base_view_of facebook) request w
  = (Raise (NameError "error"),
     set_session (insert "facebook" (SClient (mkClient remote_new))) w).
Proof.
  apply (OAuthCallback_get_without_get_redirect (base_view_of facebook)
           (mkRequest M_GET remote_new [] [])
           (after_handshake facebook [] AnonymousUser)
           (mkClient []) (mkClient remote_new));
    reflexivity.
Defined.

(** Redirect start and callback, one after the other, from an empty
    session. *)
Lemma OAuthCallback_get_after_OAuthRedirect_post_facebook :
  let callback := mkRequest M_GET remote_new [] [] in
  let started := final (OAuthRedirect_post (site_settings false true)
                          (view_of facebook) (a_post []))
                   (mkWorld ∅ AnonymousUser [alice; bob; carol] database []) in
  OAuthCallback_get (view_of facebook) callback started
  = (Ok (HttpResponseRedirect "/social/setup/callback/"),
     set_session (insert "facebook" (SClient (mkClient remote_new))) started).
Proof.
  apply (OAuthCallback_get_after_OAuthRedirect_post (site_settings false true)
           (view_of facebook) (a_post []) (mkRequest M_GET remote_new [] [])
           (mkWorld ∅ AnonymousUser [alice; bob; carol] database [])
           (mkClient remote_new) "/social/setup/callback/");
    reflexivity.
Defined.

(** The start button pressed twice. *)
Lemma OAuthRedirect_post_twice_facebook :
  let once := final (OAuthRedirect_post (site_settings false true)
                       (view_of facebook) (a_post []))
                (after_handshake facebook remote_alice AnonymousUser) in
  session (final (OAuthRedirect_post (site_settings false true)
                    (view_of facebook) (a_post [])) once)
  = session once.
Proof.
  apply (OAuthRedirect_post_twice (site_settings false true) (view_of facebook)
           (a_post []) (a_post [])
           (after_handshake facebook remote_alice AnonymousUser)).
  discriminate.
Defined.

(** Alice, logged in, posts a valid form to the setup step while a pending
    signup sits in her session. *)
Lemma Setup_dispatch_logged_in_alice :
  let request := a_post [("username", "mallory")] in
  let w := set_request_user (Authenticated alice) pending_signup in
  final (Setup_dispatch (site_settings true true) request) w = w
  ∧ (method request = M_GET →
     outcome (Setup_dispatch (site_settings true true) request) w
     = Ok (HttpResponseRedirect "/account/"))
  ∧ (method request = M_POST →
     outcome (Setup_dispatch (site_settings true true) request) w
     = Ok (ErrorResponse "You are already logged in.")).
Proof.
  apply (Setup_dispatch_logged_in (site_settings true true)
           (a_post [("username", "mallory")])
           (set_request_user (Authenticated alice) pending_signup) alice).
  reflexivity.
Defined.

(** A form posted by a browser that never went through a provider. *)
Lemma Setup_missing_session_data_no_handshake :
  let request := a_post [("username", "mallory")] in
  let w := mkWorld ∅ AnonymousUser [alice; bob; carol] database [] in
  Setup_get (site_settings true true) request w
  = (Ok (ErrorResponse "Social profile is missing from your session."), w)
  ∧ Setup_post (site_settings true true) request w
    = (Ok (ErrorResponse "A social profile is missing from your session."), w).
Proof.
  apply (Setup_missing_session_data (site_settings true true)
           (a_post [("username", "mallory")])
           (mkWorld ∅ AnonymousUser [alice; bob; carol] database []));
    reflexivity.
Defined.

(** The newcomer is shown the setup form. *)
Lemma Setup_get_renders_form_newcomer :
  Setup_get (site_settings false true) a_get pending_signup
  = (Ok (SetupFormResponse (mkForm None []) []), pending_signup).
Proof.
  apply (Setup_get_renders_form (site_settings false true) a_get pending_signup
           (mkUser None "" true true)
           (mkProfile None (mkUser None "" true true) remote_new)
           (mkClient remote_new) eq_refl eq_refl eq_refl eq_refl eq_refl).
Defined.

(** The newcomer submits the form with a username. *)
Lemma Setup_post_valid_form_newcomer :
  let request := a_post [("username", "dave")] in
  let named := mkUser None "dave" true true in
  let profile := mkProfile None (mkUser None "" true true) remote_new in
  ∃ logged_in,
    Setup_post (site_settings false true) request pending_signup
    = (Ok (HttpResponseRedirect "/account/"),
       completed_signup (site_settings false true) named profile
         (mkClient remote_new) logged_in pending_signup)
    ∧ profile_user <$>
        find_profile None remote_new
          (db_profiles (completed_signup (site_settings false true) named profile
                          (mkClient remote_new) logged_in pending_signup))
      = Some logged_in.
Proof.
  apply (Setup_post_valid_form (site_settings false true)
           (a_post [("username", "dave")]) pending_signup
           (mkUser None "" true true)
           (mkProfile None (mkUser None "" true true) remote_new)
           (mkClient remote_new) eq_refl eq_refl eq_refl eq_refl eq_refl).
Defined.

(** The newcomer's whole signup, from the provider's callback on. *)
Lemma signup_with_generated_username_newcomer :
  let w := after_handshake facebook remote_new AnonymousUser in
  outcome (SetupCallback_get (site_settings true true) (view_of facebook) a_get) w
  = Ok (HttpResponseRedirect "/social/setup/")
  ∧ Setup_get (site_settings true true) a_get
      (final (SetupCallback_get (site_settings true true) (view_of facebook) a_get) w)
    = (Ok (HttpResponseRedirect "/account/"),
       mkWorld (session w) (Authenticated newcomer)
         [alice; bob; carol; newcomer]
         (database ++ [newcomer_profile])
         [EvAuthenticate remote_new;
          EvUserSave newcomer; EvProfileSave newcomer_profile;
          EvAuthenticate remote_new;
          EvConnectSignal (Some newcomer) newcomer_profile (mkClient remote_new);
          EvLogin newcomer;
          EvLoginSignal (Some newcomer) newcomer_profile (mkClient remote_new);
          EvDeleteSessionData]).
Proof.
  apply (signup_with_generated_username (site_settings true true)
           (view_of facebook) a_get a_get
           (after_handshake facebook remote_new AnonymousUser)
           (mkClient remote_new) eq_refl eq_refl eq_refl (or_introl eq_refl) eq_refl).
  repeat (apply NoDup_cons_2; [by rewrite ?not_elem_of_cons, ?elem_of_nil; naive_solver|]).
  apply NoDup_nil_2.
Defined.

(** Bob connects the new identity twice. *)
Lemma SetupCallback_get_connect_twice_bob :
  let w := after_handshake facebook remote_new (Authenticated bob) in
  let once := final (SetupCallback_get (site_settings false true)
                       (view_of facebook) a_get) w in
  db_profiles once = database ++ [bob_profile]
  ∧ SetupCallback_get (site_settings false true) (view_of facebook) a_get once
    = (Ok (HttpResponseRedirect "/account/"),
       mkWorld (session w) (Authenticated bob) [alice; bob; carol]
         (database ++ [bob_profile])
         (events once ++ [EvConnectSignal (Some bob) bob_profile (mkClient remote_new)])).
Proof.
  apply (SetupCallback_get_connect_twice (site_settings false true)
           (view_of facebook) a_get
           (after_handshake facebook remote_new (Authenticated bob))
           (mkClient remote_new) bob);
    reflexivity.
Defined.

